(** * oni-plugin-typescript: the protocol bridge of [src/index.ts]

    A shallow embedding of the TypeScript language-service plugin of the Oni
    editor: the lightweight language client (a dispatch table of request and
    notification handlers), the buffer mirror, the completion prefix
    resolver, the diagnostics and hover translators and the navigation-tree
    flattener.

    Conventions of the embedding.
    - JavaScript numbers that hold line and column numbers are integers [Z].
    - Strings are [string]; a character is one [ascii].
    - An object used as a dictionary is the finite map [gmap string _] of
      its own properties, read through its prototype: a table written as an
      object literal also answers to the names that [Object.prototype] has,
      and a registry can have its prototype replaced by an assignment to
      ["__proto__"].
    - A synchronous call returns a [Completion]: a value or a thrown error.
    - A promise is a finite tree [Promise]: settled, or waiting for one answer
      of the language-service host.
    - Mutable variables of the closure of [activate] are fields of
      [PluginState]; calls made on the host are appended to a trace. *)

From Stdlib Require Import ZArith String Ascii List Lia.
From stdpp Require Import gmap strings list fin_maps.

Local Open Scope Z_scope.
Local Open Scope string_scope.
Local Open Scope list_scope.

(** ** JavaScript control effects *)

(** The error classes that the modelled code can raise. *)
Inductive JsError : Type :=
| TypeError
| URIError
| OtherError (message : string).

(** What a synchronous call evaluates to. *)
Inductive Completion (A : Type) : Type :=
| Normal (a : A)
| Throw (e : JsError).
Arguments Normal {A} a.
Arguments Throw {A} e.

(** The reason of a rejected promise: [Promise.reject("...")] carries a
    string, an error escaping an [async] function carries the error. *)
Inductive Reason : Type :=
| ReasonText (s : string)
| ReasonError (e : JsError).

(** The values that the functions of [Object.prototype] return when they
    are called in place of a handler: a string, a boolean, or the [String]
    object that wraps a string. *)
Inductive JsValue : Type :=
| JsString (s : string)
| JsBoolean (b : bool)
| JsStringObject (s : string).

(** ** Payloads of the language-service host ([protocol.d.ts]) *)

Module protocol.

Record Location := { line : Z; offset : Z }.

Record TextSpan := { start : Location; end_ : Location }.

Record QuickInfoResponseBody := {
  displayString : string;
  documentation : string }.

Record CompletionEntry := { name : string; kind : string }.

(** A diagnostic of a [semanticDiag] event.  [category] is the severity
    the host reports ("error", "warning", ...). *)
Record Diagnostic := {
  diag_start : Location;
  diag_end : Location;
  text : string;
  category : string }.

Record DiagnosticEventBody := {
  file : string;
  diagnostics : option (list Diagnostic) }.

End protocol.

(** ** Editor-side types ([vscode-languageserver-types]) *)

Module types.

Record Position := { line : Z; character : Z }.

Record Range := { start : Position; end_ : Position }.

Definition Position_create (line character : Z) : Position :=
  {| line := line; character := character |}.

Definition Range_create (start end_ : Position) : Range :=
  {| start := start; end_ := end_ |}.

Record Hover := { contents : list string }.

Record TextDocumentIdentifier := { uri : string }.

Record TextDocumentContentChangeEvent := {
  change_range : option Range;
  text : string }.

End types.

(** The enumerations [types.CompletionItemKind] and [types.SymbolKind].
    Each has a module of its own, as the two share member names; a member
    [X] of the library is [X_] here.  In the library every member is a
    positive number, hence truthy. *)
Module CompletionItemKind.

Inductive t : Type :=
| Text_ | Method_ | Function_ | Constructor_ | Field_ | Variable_ | Class_
| Interface_ | Module_ | Property_ | Unit_ | Value_ | Enum_ | Keyword_
| Snippet_ | Color_ | File_ | Reference_.

End CompletionItemKind.

Module SymbolKind.

Inductive t : Type :=
| File_ | Module_ | Namespace_ | Package_ | Class_ | Method_ | Property_
| Field_ | Constructor_ | Enum_ | Interface_ | Function_ | Variable_
| Constant_ | String_ | Number_ | Boolean_ | Array_.

End SymbolKind.

(** The requests of [TypeScriptServerHost] that return a promise, indexed by
    the type of their answer. *)
Inductive HostRequest : Type -> Type :=
| GetQuickInfo (file : string) (line offset : Z)
  : HostRequest protocol.QuickInfoResponseBody
| GetCompletions (file : string) (line col : Z) (prefix : string)
  : HostRequest (list protocol.CompletionEntry).

(** A promise: already settled, or the continuation ([then], [await]) of one
    request to the host.  [NotPromise] is a value that is no promise, in a
    place where the declared type has one: [sendRequest] returns what the
    function it found returns, declared type or not. *)
Inductive Promise (A : Type) : Type :=
| Resolve (a : A)
| Reject (r : Reason)
| Await {R : Type} (req : HostRequest R) (k : R -> Promise A)
| NotPromise (v : JsValue).
Arguments Resolve {A} a.
Arguments Reject {A} r.
Arguments Await {A R} req k.
Arguments NotPromise {A} v.

Inductive Settled (A : Type) : Type :=
| Fulfilled (a : A)
| Rejected (r : Reason).
Arguments Fulfilled {A} a.
Arguments Rejected {A} r.

(** The host answers a request or fails it. *)
Definition HostOracle : Type := forall R : Type, HostRequest R -> Settled R.

(** The outcome of a promise once the host has answered.  A failed request
    rejects the promise and skips the continuation.  A value that is no
    promise has nothing to settle: for it [settle] gives the [TypeError]
    that chaining [then] on the value raises. *)
Fixpoint settle {A : Type} (host : HostOracle) (p : Promise A) : Settled A :=
  match p with
  | Resolve a => Fulfilled a
  | Reject r => Rejected r
  | Await req k =>
      match host _ req with
      | Fulfilled v => settle host (k v)
      | Rejected r => Rejected r
      end
  | NotPromise _ => Rejected (ReasonError TypeError)
  end.

(** The requests that a promise sends to the host, in order. *)
Inductive SentRequest : Type :=
| Sent {R : Type} (req : HostRequest R).

Fixpoint requestsOf {A : Type} (host : HostOracle) (p : Promise A)
  : list SentRequest :=
  match p with
  | Resolve _ | Reject _ | NotPromise _ => []
  | Await req k =>
      Sent req ::
      match host _ req with
      | Fulfilled v => requestsOf host (k v)
      | Rejected _ => []
      end
  end.

(** ** Objects used as dictionaries

    The members of [Object.prototype]: an object written as [{}] or as an
    object literal answers to these names as well as to its own. *)
Definition objectPrototypeMembers : list string :=
  [ "constructor"; "__defineGetter__"; "__defineSetter__"; "hasOwnProperty";
    "__lookupGetter__"; "__lookupSetter__"; "isPrototypeOf";
    "propertyIsEnumerable"; "toString"; "valueOf"; "__proto__";
    "toLocaleString" ].

(** What [table[key]] gives on a table written as an object literal: the
    value the table has for the key, the member of [Object.prototype] of
    that name, or [undefined]. *)
Inductive Looked (A : Type) : Type :=
| Mapped (a : A)
| Inherited (member : string)
| Absent.
Arguments Mapped {A} a.
Arguments Inherited {A} member.
Arguments Absent {A}.

Definition lookUp {A : Type} (table : gmap string A) (key : string)
    : Looked A :=
  match table !! key with
  | Some a => Mapped a
  | None =>
      if decide (key ∈ objectPrototypeMembers) then Inherited key
      else Absent
  end.

(** [member(name, ...)] for a member of [Object.prototype] called as a
    plain function, with [this] undefined and a string as first argument.
    [toString] describes [undefined], [constructor] (the function
    [Object]) wraps the string, [isPrototypeOf] answers [false] for
    what is no object.  The other functions convert [this] to an object
    first and raise [TypeError]; ["__proto__"] is read as the prototype, an
    object that cannot be called. *)
Definition callObjectPrototypeMember (member name : string)
    : Completion JsValue :=
  if decide (member = "toString") then Normal (JsString "[object Undefined]")
  else if decide (member = "constructor") then Normal (JsStringObject name)
  else if decide (member = "isPrototypeOf") then Normal (JsBoolean false)
  else Throw TypeError.

(** A registry: an object made by [{}] that is only ever read and written
    by name.  [own] holds its own properties.  [replaced] is its prototype
    once an assignment to ["__proto__"] has replaced [Object.prototype] by
    the assigned value. *)
Record Registry (V : Type) : Type := {
  own : gmap string V;
  replaced : option V }.
Arguments own {V} r.
Arguments replaced {V} r.

Definition emptyRegistry {V : Type} : Registry V :=
  {| own := ∅; replaced := None |}.

(** [registry[name]], [None] for what is [undefined] or falsy.  An own
    property comes first.  [ofObjectPrototype] is what the members of
    [Object.prototype] are for the caller; [through] is what a read finds
    through a value that has become the prototype.  ["__proto__"] reads as
    the prototype itself. *)
Definition registryGet {V : Type} (ofObjectPrototype : string -> option V)
    (through : V -> string -> option V) (r : Registry V) (name : string)
    : option V :=
  match own r !! name with
  | Some v => Some v
  | None =>
      match replaced r with
      | None => ofObjectPrototype name
      | Some prototype =>
          if decide (name = "__proto__") then Some prototype
          else through prototype name
      end
  end.

(** [registry[name] = v], for a value that is an object.  An own property
    is overwritten.  ["__proto__"] is the setter of [Object.prototype]: it
    replaces the prototype and adds no property.  Another name becomes an
    own property, unless the prototype in place has the name as a property
    that cannot be written ([readOnly]): the assignment then raises
    [TypeError], the module being in strict mode, and changes nothing. *)
Definition registrySet {V : Type} (readOnly : list string) (r : Registry V)
    (name : string) (v : V) : Registry V * Completion unit :=
  match own r !! name with
  | Some _ =>
      ({| own := <[name := v]> (own r); replaced := replaced r |}, Normal tt)
  | None =>
      if decide (name = "__proto__") then
        ({| own := own r; replaced := Some v |}, Normal tt)
      else
        match replaced r with
        | Some _ =>
            if decide (name ∈ readOnly) then (r, Throw TypeError)
            else ({| own := <[name := v]> (own r);
                     replaced := replaced r |}, Normal tt)
        | None =>
            ({| own := <[name := v]> (own r); replaced := replaced r |},
             Normal tt)
        end
  end.

(** The properties of a function that an assignment cannot write, its own
    or those of [Function.prototype]. *)
Definition functionReadOnly : list string :=
  [ "length"; "name"; "arguments"; "caller" ].

(** ** LightweightLanguageClient *)

Section LightweightLanguageClient.

(** [Payload] stands for the [any] of protocol arguments, [Result] for the
    [any] a request resolves to, [World] for whatever a handler can
    change. *)
Context {Payload Result World : Type}.

Definition RequestHandler : Type :=
  string -> Payload -> World -> World * Completion (Promise Result).

Definition NotificationHandler : Type :=
  string -> Payload -> World -> World * Completion unit.

(** An [Oni.Event] is used through its [dispatch] method only. *)
Definition Event : Type := Payload -> World -> World * Completion unit.

(** What the members of [Object.prototype] do where the client expects a
    request handler: a handler is called as [handler(requestName, ...)] and
    what it returns is returned. *)
Definition inheritedRequestHandler (name : string) : option RequestHandler :=
  if decide (name ∈ objectPrototypeMembers) then
    Some (fun requestName _ w =>
            (w, match callObjectPrototypeMember name requestName with
                | Normal v => Normal (NotPromise v)
                | Throw e => Throw e
                end))
  else None.

(** The same for a notification handler: what it returns is dropped. *)
Definition inheritedNotificationHandler (name : string)
    : option NotificationHandler :=
  if decide (name ∈ objectPrototypeMembers) then
    Some (fun notificationName _ w =>
            (w, match callObjectPrototypeMember name notificationName with
                | Normal _ => Normal tt
                | Throw e => Throw e
                end))
  else None.

(** The same for an event: none of the members has a [dispatch] method, and
    calling [undefined] raises [TypeError]. *)
Definition inheritedEvent (name : string) : option Event :=
  if decide (name ∈ objectPrototypeMembers) then
    Some (fun _ w => (w, Throw TypeError))
  else None.

(** What a read by name finds through a handler or an event that has
    become the prototype of a registry: a property of the value itself
    (the [length] and the [name] of a function, say), of [Function.prototype]
    or of the prototype of the event, or of [Object.prototype].  This
    depends on the value as an object, which a handler seen as what it does
    when called does not tell: the runtime is taken as given.  [None] is
    for what is [undefined] or falsy; what is found and cannot be called is
    a handler that raises [TypeError]. *)
Record Runtime := {
  throughRequestHandler : RequestHandler -> string -> option RequestHandler;
  throughNotificationHandler :
    NotificationHandler -> string -> option NotificationHandler;
  throughEvent : Event -> string -> option Event }.

(** The three registries of the class, each initialised to [{}], and the
    runtime the object lives in. *)
Record LightweightLanguageClient := {
  runtime : Runtime;
  _subscriptions : Registry Event;
  _requestHandler : Registry RequestHandler;
  _notificationHandler : Registry NotificationHandler }.

Definition newClient (runtime : Runtime) : LightweightLanguageClient :=
  {| runtime := runtime;
     _subscriptions := emptyRegistry;
     _requestHandler := emptyRegistry;
     _notificationHandler := emptyRegistry |}.

(** The registrations give back the client after the assignment and how
    the assignment completes.  An event is an object of a class of the
    editor, all of whose properties can be written. *)
Definition subscribe (c : LightweightLanguageClient)
    (notificationName : string) (evt : Event)
    : LightweightLanguageClient * Completion unit :=
  let assigned := registrySet [] (_subscriptions c) notificationName evt in
  ({| runtime := runtime c;
      _subscriptions := assigned.1;
      _requestHandler := _requestHandler c;
      _notificationHandler := _notificationHandler c |}, assigned.2).

Definition sendRequest (c : LightweightLanguageClient)
    (fileName requestName : string) (protocolArguments : Payload)
    (w : World) : World * Completion (Promise Result) :=
  match registryGet inheritedRequestHandler
          (throughRequestHandler (runtime c)) (_requestHandler c)
          requestName with
  | Some handler => handler requestName protocolArguments w
  | None => (w, Normal (Reject (ReasonText "Not implemented")))
  end.

Definition sendNotification (c : LightweightLanguageClient)
    (fileName notificationName : string) (protocolArguments : Payload)
    (w : World) : World * Completion unit :=
  match registryGet inheritedNotificationHandler
          (throughNotificationHandler (runtime c)) (_notificationHandler c)
          notificationName with
  | Some notifier => notifier notificationName protocolArguments w
  | None => (w, Normal tt)
  end.

Definition handleRequest (c : LightweightLanguageClient)
    (requestName : string) (handler : RequestHandler)
    : LightweightLanguageClient * Completion unit :=
  let assigned :=
    registrySet functionReadOnly (_requestHandler c) requestName handler in
  ({| runtime := runtime c;
      _subscriptions := _subscriptions c;
      _requestHandler := assigned.1;
      _notificationHandler := _notificationHandler c |}, assigned.2).

Definition handleNotification (c : LightweightLanguageClient)
    (notificationName : string) (notificationHandler : NotificationHandler)
    : LightweightLanguageClient * Completion unit :=
  let assigned :=
    registrySet functionReadOnly (_notificationHandler c) notificationName
      notificationHandler in
  ({| runtime := runtime c;
      _subscriptions := _subscriptions c;
      _requestHandler := _requestHandler c;
      _notificationHandler := assigned.1 |}, assigned.2).

Definition notify (c : LightweightLanguageClient)
    (notificationName : string) (payload : Payload)
    (w : World) : World * Completion unit :=
  match registryGet inheritedEvent (throughEvent (runtime c))
          (_subscriptions c) notificationName with
  | Some notifierEvent => notifierEvent payload w
  | None => (w, Normal tt)
  end.

End LightweightLanguageClient.

Arguments LightweightLanguageClient : clear implicits.
Arguments Runtime : clear implicits.
Arguments RequestHandler : clear implicits.
Arguments NotificationHandler : clear implicits.
Arguments Event : clear implicits.

(** ** JavaScript arrays of strings

    An array is its integer-named properties and its [length].  Reading an
    index that holds nothing gives [undefined] ([None]); writing past the
    end extends the array and leaves holes.  The array indices are the
    integers from 0 to 2^32 - 2: writing at a negative integer, or at
    2^32 - 1 or above, adds a property and leaves [length] as it is. *)
Module JsArray.

Record t := { elems : gmap Z string; length : Z }.

Definition empty : t := {| elems := ∅; length := 0 |}.

Definition get (a : t) (i : Z) : option string := elems a !! i.

Definition set (a : t) (i : Z) (v : string) : t :=
  {| elems := <[i := v]> (elems a);
     length := if decide (0 <= i < 4294967295)
               then Z.max (length a) (i + 1)
               else length a |}.

Definition of_list (l : list string) : t :=
  {| elems := map_seqZ 0 l; length := Z.of_nat (List.length l) |}.

End JsArray.

(** ** Results handed to the editor *)

Record DiagnosticError := {
  type_ : option string;
  message : string;
  range : types.Range;
  severity : Z }.

Record CompletionItem := {
  label : string;
  item_kind : Looked CompletionItemKind.t }.

Record CompletionResult := {
  base : option string;
  completions : list CompletionItem }.

Record Highlight := {
  highlightKind : Looked SymbolKind.t;
  token : string }.

Inductive EditorCall : Type :=
| SetErrors (source fileName : string) (errors : list DiagnosticError).

(** ** Events of the editor

    A path that is absent and a path that is empty are both falsy; both are
    the empty string here. *)
Record EventContext := {
  bufferFullPath : string;
  line : Z;
  column : Z }.

Record BufferUpdateContext := {
  bu_eventContext : EventContext;
  bufferLines : list string }.

Record IncrementalBufferUpdateContext := {
  ibu_eventContext : EventContext;
  lineNumber : Z;
  bufferLine : string }.

Record HoverPayload := {
  textDocument : types.TextDocumentIdentifier;
  position : types.Position }.

Record DidOpenPayload := {
  opened_textDocument : types.TextDocumentIdentifier }.

Record DidChangePayload := {
  changed_textDocument : types.TextDocumentIdentifier;
  contentChanges : list types.TextDocumentContentChangeEvent }.

(** ** Navigation trees *)

#[local] Unset Elimination Schemes.

(** [protocol.NavigationTree] as declared: [spans] is required, [childItems]
    is optional. *)
Inductive NavigationTree : Type :=
| NavTree (text kind : string) (spans : list protocol.TextSpan)
          (childItems : option (list NavigationTree)).

(** A navigation tree as it can reach the plugin at run time: nothing checks
    the answer of the host against the declaration, so [spans] may be
    missing. *)
Inductive NavigationTreeValue : Type :=
| NavValue (text kind : string) (spans : option (list protocol.TextSpan))
           (childItems : option (list NavigationTreeValue)).

#[local] Set Elimination Schemes.

Fixpoint toValue (t : NavigationTree) : NavigationTreeValue :=
  match t with
  | NavTree text kind spans childItems =>
      NavValue text kind (Some spans) (option_map (map toValue) childItems)
  end.

(** ** State of an activated plugin *)

(** Calls that leave the plugin towards the host.  [throttled_updateFile]
    is a call of [updateFile], the wrapper made by [Oni.helpers.throttle];
    the others are direct calls of [host]. *)
Inductive Effect : Type :=
| host_openFile (file : string)
| host_updateFile (file contents : string)
| throttled_updateFile (file contents : string)
| host_changeLineInFile (file : string) (line : Z) (text : string).

Record PluginState := {
  lastBuffer : JsArray.t;
  effects : list Effect }.

(** [const lastOpenFile = null]: a constant, never assigned again. *)
Definition lastOpenFile : option string := None.

Definition initialState : PluginState :=
  {| lastBuffer := JsArray.empty; effects := [] |}.

(** ** The body of [activate] *)

Section Activate.

(** [unwrapFileUriPath] strips the file prefix of a URI and applies
    [decodeURIComponent], which raises [URIError] on a malformed escape.
    The prefix depends on [process.platform]; both belong to the runtime
    and the function is taken as given.  [EOL] is [os.EOL]. *)
Variable unwrapFileUriPath : string -> Completion string.
Variable EOL : string.

(** *** Kind tables *)

Definition typeScriptKindToCompletionKind
    : gmap string CompletionItemKind.t :=
  list_to_map [
    ("let", CompletionItemKind.Variable_);
    ("interface", CompletionItemKind.Interface_);
    ("alias", CompletionItemKind.Reference_);
    ("color", CompletionItemKind.Color_);
    ("const", CompletionItemKind.Value_);
    ("constructor", CompletionItemKind.Constructor_);
    ("class", CompletionItemKind.Class_);
    ("type", CompletionItemKind.Class_);
    ("directory", CompletionItemKind.File_);
    ("file", CompletionItemKind.File_);
    ("script", CompletionItemKind.File_);
    ("var", CompletionItemKind.Variable_);
    ("property", CompletionItemKind.Property_);
    ("parameter", CompletionItemKind.Variable_);
    ("module", CompletionItemKind.Module_);
    ("external module name", CompletionItemKind.Module_);
    ("method", CompletionItemKind.Method_);
    ("function", CompletionItemKind.Function_);
    ("unit", CompletionItemKind.Unit_);
    ("keyword", CompletionItemKind.Keyword_);
    ("text", CompletionItemKind.Text_) ].

(** [kind && table[kind]]: an empty kind is falsy, a mapped kind and a
    member of [Object.prototype] are truthy; [Absent] is [null] here. *)
Definition convertTypeScriptKindToCompletionItemKind (kind : string)
    : Looked CompletionItemKind.t :=
  if decide (kind = "") then Absent
  else lookUp typeScriptKindToCompletionKind kind.

Definition kindToHighlightGroup : gmap string SymbolKind.t :=
  list_to_map [
    ("let", SymbolKind.Variable_);
    ("const", SymbolKind.Constant_);
    ("var", SymbolKind.Variable_);
    ("alias", SymbolKind.Package_);
    ("function", SymbolKind.Method_);
    ("method", SymbolKind.Function_);
    ("property", SymbolKind.Property_);
    ("class", SymbolKind.Class_);
    ("interface", SymbolKind.Interface_) ].

(** *** Completion *)

(** [currentCharacter.match(/[_a-z]/i)] on a one-character string. *)
Definition isIdentifierCharacter (c : ascii) : bool :=
  let n := nat_of_ascii c in
  (n =? 95)%nat
  || ((97 <=? n)%nat && (n <=? 122)%nat)
  || ((65 <=? n)%nat && (n <=? 90)%nat).

(** The loop [while (col >= 0)], by recursion on [col + 1].  It gives back
    [currentPrefix] and the final [col].  Indexing an [undefined] line and
    calling [match] on an [undefined] character both raise [TypeError]. *)
Fixpoint scanPrefix (currentLine : option string) (colSucc : nat)
    (currentPrefix : string) : Completion (string * Z) :=
  match colSucc with
  | O => Normal (currentPrefix, -1)
  | S col =>
      match currentLine with
      | None => Throw TypeError
      | Some l =>
          match String.get col l with
          | None => Throw TypeError
          | Some currentCharacter =>
              if isIdentifierCharacter currentCharacter
              then scanPrefix currentLine col
                     (String currentCharacter currentPrefix)
              else Normal (currentPrefix, Z.of_nat col)
          end
      end
  end.

(** [currentLine[i]]. *)
Definition charAt (currentLine : option string) (i : Z)
    : Completion (option ascii) :=
  match currentLine with
  | None => Throw TypeError
  | Some l =>
      if decide (0 <= i) then Normal (String.get (Z.to_nat i) l)
      else Normal None
  end.

(** [s.indexOf(p)]. *)
Definition indexOf (s p : string) : Z :=
  match String.index 0 p s with
  | Some n => Z.of_nat n
  | None => -1
  end.

Definition keepEntry (currentPrefix : string) (v : protocol.CompletionEntry)
    : bool :=
  (indexOf (protocol.name v) currentPrefix =? 0)%Z
  || (String.length currentPrefix =? 0)%nat.

Definition toCompletionItem (v : protocol.CompletionEntry) : CompletionItem :=
  {| label := protocol.name v;
     item_kind :=
       convertTypeScriptKindToCompletionItemKind (protocol.kind v) |}.

(** [getCompletions].  [col] starts at [column - 2] and the loop is entered
    with [col + 1] steps left.  [currentLine[basePos]] is read only when the
    prefix is empty ([&&] is short-circuit).  The call of [Oni.log.verbose]
    is left out.  A synchronous error is [Throw]: the function is not
    [async]. *)
Definition getCompletions (s : PluginState)
    (textDocumentPosition : EventContext)
    : Completion (Promise CompletionResult) :=
  if decide (column textDocumentPosition <= 1) then
    Normal (Resolve {| base := None; completions := [] |})
  else
    let currentLine :=
      JsArray.get (lastBuffer s) (line textDocumentPosition - 1) in
    match scanPrefix currentLine
            (Z.to_nat (column textDocumentPosition - 2 + 1)) "" with
    | Throw e => Throw e
    | Normal (currentPrefix, basePos) =>
        let answer :=
          Normal (Await
            (GetCompletions (bufferFullPath textDocumentPosition)
               (line textDocumentPosition) (column textDocumentPosition)
               currentPrefix)
            (fun val =>
               Resolve {| base := Some currentPrefix;
                          completions :=
                            map toCompletionItem
                              (List.filter
                                 (fun v => keepEntry currentPrefix v)
                                 val) |})) in
        if (String.length currentPrefix =? 0)%nat then
          match charAt currentLine basePos with
          | Throw e => Throw e
          | Normal c =>
              if decide (c = Some "."%char) then answer
              else Normal (Resolve {| base := Some currentPrefix;
                                      completions := [] |})
          end
        else answer
    end.

(** *** Diagnostics: the handler of [host.on("semanticDiag")] *)

Definition toDiagnosticError (d : protocol.Diagnostic) : DiagnosticError :=
  let startPosition :=
    types.Position_create
      (protocol.line (protocol.diag_start d) - 1)
      (protocol.offset (protocol.diag_start d)) in
  let endPosition :=
    types.Position_create
      (protocol.line (protocol.diag_end d) - 1)
      (protocol.offset (protocol.diag_end d)) in
  let range := types.Range_create startPosition endPosition in
  {| type_ := None;
     message := protocol.text d;
     range := range;
     severity := 1 |}.

Definition onSemanticDiag (diagnostics : protocol.DiagnosticEventBody)
    : EditorCall :=
  let fileName := protocol.file diagnostics in
  let diags := default [] (protocol.diagnostics diagnostics) in
  let errors := map toDiagnosticError diags in
  SetErrors "typescript-compiler" fileName errors.

(** *** Hover *)

(** An [async] function: an error raised in its body rejects the promise
    it returns. *)
Definition getQuickInfo (protocolName : string) (payload : HoverPayload)
    : Promise types.Hover :=
  let textDocument := textDocument payload in
  let position := position payload in
  match unwrapFileUriPath (types.uri textDocument) with
  | Throw e => Reject (ReasonError e)
  | Normal filePath =>
      Await
        (GetQuickInfo filePath (types.line position + 1)
           (types.character position + 1))
        (fun val =>
           Resolve {| types.contents :=
                        [protocol.displayString val;
                         protocol.documentation val] |})
  end.

(** [getQuickInfo] as it is registered for ["textDocument/hover"]. *)
Definition getQuickInfoHandler {World : Type}
    : RequestHandler HoverPayload types.Hover World :=
  fun protocolName payload w =>
    (w, Normal (getQuickInfo protocolName payload)).

(** *** Buffer mirror *)

Definition emit (e : Effect) (s : PluginState) : PluginState :=
  {| lastBuffer := lastBuffer s; effects := effects s ++ [e] |}.

(** The handlers of ["textDocument/didOpen"] and
    ["textDocument/didChange"]. *)
Definition protocolOpenFile
    : NotificationHandler DidOpenPayload PluginState :=
  fun message payload s =>
    let textDocument := opened_textDocument payload in
    match unwrapFileUriPath (types.uri textDocument) with
    | Throw e => (s, Throw e)
    | Normal filePath => (emit (host_openFile filePath) s, Normal tt)
    end.

Definition protocolChangeFile
    : NotificationHandler DidChangePayload PluginState :=
  fun message payload s =>
    let textDocument := changed_textDocument payload in
    let contentChanges := contentChanges payload in
    match unwrapFileUriPath (types.uri textDocument) with
    | Throw e => (s, Throw e)
    | Normal filePath =>
        match contentChanges !! 0%nat with
        | None => (s, Throw TypeError)
        | Some change =>
            match types.change_range change with
            | None =>
                (emit (host_updateFile filePath (types.text change)) s,
                 Normal tt)
            | Some _ => (s, Normal tt)
            end
        end
    end.

(** The handler of [Oni.on("buffer-update")].  [lastBuffer] becomes the
    array of the event itself; the editor, which could see a later write
    through that array, is not part of the model.  With [lastOpenFile]
    being [null], [lastOpenFile !== path] compares [null] with a string. *)
Definition onBufferUpdate (args : BufferUpdateContext) (s : PluginState)
    : PluginState :=
  let path := bufferFullPath (bu_eventContext args) in
  if decide (path = "") then s
  else
    let s1 :=
      if decide (lastOpenFile = Some path) then s
      else emit (host_openFile path) s in
    let s2 :=
      {| lastBuffer := JsArray.of_list (bufferLines args);
         effects := effects s1 |} in
    emit (throttled_updateFile path (String.concat EOL (bufferLines args)))
         s2.

(** The handler of [Oni.on("buffer-update-incremental")]. *)
Definition onBufferUpdateIncremental
    (args : IncrementalBufferUpdateContext) (s : PluginState)
    : PluginState :=
  let path := bufferFullPath (ibu_eventContext args) in
  if decide (path = "") then s
  else
    let changedLine := bufferLine args in
    let lineNumber := lineNumber args in
    let s1 :=
      {| lastBuffer := JsArray.set (lastBuffer s) (lineNumber - 1) changedLine;
         effects := effects s |} in
    emit (host_changeLineInFile path lineNumber changedLine) s1.

(** *** Highlights from the navigation tree *)

(** [spans.forEach((s) => highlights.push(...))]. *)
Definition pushSpans (highlightKind : Looked SymbolKind.t) (text : string)
    (spans : list protocol.TextSpan) (highlights : list Highlight)
    : list Highlight :=
  fold_left
    (fun acc _ => acc ++ [{| highlightKind := highlightKind; token := text |}])
    spans highlights.

(** The callback of [navTree.forEach].  The accumulator is mutated in
    place: what was pushed before an error stays in it. *)
Fixpoint visitItem (item : NavigationTreeValue) (highlights : list Highlight)
    : list Highlight * Completion unit :=
  match item with
  | NavValue text kind spans childItems =>
      let highlightKind := lookUp kindToHighlightGroup kind in
      match spans with
      | None => (highlights, Throw TypeError)
      | Some spans =>
          let highlights := pushSpans highlightKind text spans highlights in
          match childItems with
          | None => (highlights, Normal tt)
          | Some childItems =>
              (fix forEach (l : list NavigationTreeValue)
                   (highlights : list Highlight)
                 : list Highlight * Completion unit :=
                 match l with
                 | [] => (highlights, Normal tt)
                 | c :: l' =>
                     match visitItem c highlights with
                     | (highlights, Normal _) => forEach l' highlights
                     | failed => failed
                     end
                 end) childItems highlights
          end
      end
  end.

Fixpoint forEachItem (l : list NavigationTreeValue)
    (highlights : list Highlight) : list Highlight * Completion unit :=
  match l with
  | [] => (highlights, Normal tt)
  | c :: l' =>
      match visitItem c highlights with
      | (highlights, Normal _) => forEachItem l' highlights
      | failed => failed
      end
  end.

Definition getHighlightsFromNavTree
    (navTree : option (list NavigationTreeValue))
    (highlights : list Highlight) : list Highlight * Completion unit :=
  match navTree with
  | None => (highlights, Normal tt)
  | Some navTree => forEachItem navTree highlights
  end.

End Activate.

(** ** Reading the code against the specification

    The definitions below follow the words of the specification; the
    theorems compare them with the code above. *)

(** The mirror of a document: the lines that a positional query on this
    document is answered from.  [getCompletions] reads [lastBuffer] whatever
    the path of the query is, so the plugin has one mirror for all the
    documents. *)
Definition mirrorOf (s : PluginState) (document : string) : JsArray.t :=
  lastBuffer s.

(** Every character of [s] belongs to the identifier class. *)
Fixpoint allIdentifier (s : string) : bool :=
  match s with
  | EmptyString => true
  | String c s' => isIdentifierCharacter c && allIdentifier s'
  end.

(** The last character of a string, if any. *)
Fixpoint lastCharacter (s : string) : option ascii :=
  match s with
  | EmptyString => None
  | String c EmptyString => Some c
  | String _ s' => lastCharacter s'
  end.

(** The highlight entries of one node: one per span. *)
Definition entriesOf (text kind : string) (spans : list protocol.TextSpan)
    : list Highlight :=
  map (fun _ => {| highlightKind := lookUp kindToHighlightGroup kind;
                   token := text |}) spans.

(** Pre-order flattening of a declared navigation tree: the entries of the
    node, then its children in array order. *)
Fixpoint preorder (t : NavigationTree) : list Highlight :=
  match t with
  | NavTree text kind spans childItems =>
      entriesOf text kind spans ++
      match childItems with
      | None => []
      | Some childItems => List.flat_map preorder childItems
      end
  end.

(** No node of the tree lacks its [spans]. *)
Fixpoint allSpansPresent (t : NavigationTreeValue) : bool :=
  match t with
  | NavValue _ _ spans childItems =>
      match spans with
      | None => false
      | Some _ =>
          match childItems with
          | None => true
          | Some childItems => forallb allSpansPresent childItems
          end
      end
  end.

(** The line and the offset that a request carries to the host. *)
Definition requestPosition (r : SentRequest) : Z * Z :=
  match r with
  | Sent (GetQuickInfo _ line offset) => (line, offset)
  | Sent (GetCompletions _ line col _) => (line, col)
  end.

(** How one error sent to the editor relates to the diagnostic of the host
    it was made from. *)
Definition convertedFrom (d : protocol.Diagnostic) (err : DiagnosticError)
    : Prop :=
  types.line (types.start (range err))
    = protocol.line (protocol.diag_start d) - 1
  /\ types.line (types.end_ (range err))
    = protocol.line (protocol.diag_end d) - 1
  /\ types.character (types.start (range err))
    = protocol.offset (protocol.diag_start d)
  /\ types.character (types.end_ (range err))
    = protocol.offset (protocol.diag_end d)
  /\ message err = protocol.text d
  /\ severity err = 1.

(** ** Proof steps *)

(** A string literal is not in a list of other string literals. *)
Ltac not_member :=
  let H := fresh in
  intros H; repeat (apply elem_of_cons in H as [H | H]; [discriminate |]);
  by apply elem_of_nil in H.


(** ** Example data *)

Definition exampleRequestHandler : RequestHandler unit nat unit :=
  fun _ _ w => (w, Normal (Resolve 7%nat)).

(** A runtime for the examples, none of which replaces the prototype of a
    registry: nothing is ever read through a handler. *)
Definition exampleRuntime {Payload Result World : Type}
    : Runtime Payload Result World :=
  {| throughRequestHandler := fun _ _ => None;
     throughNotificationHandler := fun _ _ => None;
     throughEvent := fun _ _ => None |}.

Definition exampleClient : LightweightLanguageClient unit nat unit :=
  (handleRequest (newClient exampleRuntime) "textDocument/hover"
     exampleRequestHandler).1.

(** [unwrapFileUriPath] on a platform other than win32, for a URI that
    starts with the file prefix and has no escape: the rest of the URI. *)
Definition exampleUnwrap (uri : string) : Completion string :=
  Normal (String.substring 7 (String.length uri - 7) uri).

Definition exampleChangeClient
    : LightweightLanguageClient DidChangePayload unit PluginState :=
  (handleNotification (newClient exampleRuntime) "textDocument/didChange"
     (protocolChangeFile exampleUnwrap)).1.

(** A change notification that carries no change. *)
Definition emptyChange : DidChangePayload :=
  {| changed_textDocument := {| types.uri := "file:///a.ts" |};
     contentChanges := [] |}.

Definition exampleDiagnostic : protocol.Diagnostic :=
  {| protocol.diag_start := {| protocol.line := 5; protocol.offset := 3 |};
     protocol.diag_end := {| protocol.line := 6; protocol.offset := 9 |};
     protocol.text := "Cannot find name 'x'.";
     protocol.category := "warning" |}.

Definition exampleHover : HoverPayload :=
  {| textDocument := {| types.uri := "file:///a.ts" |};
     position := {| types.line := 0; types.character := 0 |} |}.

Definition exampleHoverClient
    : LightweightLanguageClient HoverPayload types.Hover unit :=
  (handleRequest (newClient exampleRuntime) "textDocument/hover"
     (getQuickInfoHandler exampleUnwrap)).1.

(** A host that answers every request. *)
Definition exampleHost : HostOracle :=
  fun R req =>
    match req in HostRequest R return Settled R with
    | GetQuickInfo _ _ _ =>
        Fulfilled {| protocol.displayString := "const x: number";
                     protocol.documentation := "" |}
    | GetCompletions _ _ _ _ =>
        Fulfilled [ {| protocol.name := "bar"; protocol.kind := "method" |};
                    {| protocol.name := "foo"; protocol.kind := "var" |};
                    {| protocol.name := "baz"; protocol.kind := "enum" |} ]
    end.

Definition exampleUpdate : BufferUpdateContext :=
  {| bu_eventContext :=
       {| bufferFullPath := "/q.ts"; line := 1; column := 1 |};
     bufferLines := ["foo.ba"] |}.

Definition exampleIncrement : IncrementalBufferUpdateContext :=
  {| ibu_eventContext :=
       {| bufferFullPath := "/p.ts"; line := 1; column := 1 |};
     lineNumber := 1;
     bufferLine := "foo.xy" |}.

(** A completion query on [/q.ts], line 1, with the cursor after the last
    character of a line of six characters. *)
Definition exampleQuery : EventContext :=
  {| bufferFullPath := "/q.ts"; line := 1; column := 7 |}.

(** The request for completions sent for a query, if one is sent. *)
Definition completionRequest (r : Completion (Promise CompletionResult))
    : option (Z * Z * string) :=
  match r with
  | Normal (Await (GetCompletions _ line col prefix) _) =>
      Some (line, col, prefix)
  | _ => None
  end.

(** The mirror after one full update of [/q.ts] with the line "foo.ba". *)
Definition exampleState : PluginState :=
  onBufferUpdate "" exampleUpdate initialState.

(** A query on line 1, column 2, and a query past the end of "foo.ba". *)
Definition earlyQuery : EventContext :=
  {| bufferFullPath := "/q.ts"; line := 1; column := 2 |}.

Definition farQuery : EventContext :=
  {| bufferFullPath := "/q.ts"; line := 1; column := 9 |}.

Definition exampleSpan : protocol.TextSpan :=
  {| protocol.start := {| protocol.line := 1; protocol.offset := 7 |};
     protocol.end_ := {| protocol.line := 1; protocol.offset := 10 |} |}.

(** A class with one method, each with one span. *)
Definition exampleTree : NavigationTree :=
  NavTree "Foo" "class" [exampleSpan]
    (Some [NavTree "bar" "method" [exampleSpan] None]).

(** A class with a constructor, each with one span: what the host answers
    for [class Foo { constructor() {} }]. *)
Definition exampleClassTree : NavigationTree :=
  NavTree "Foo" "class" [exampleSpan]
    (Some [NavTree "constructor" "constructor" [exampleSpan] None]).

(** The same class without its [spans], followed by another class. *)
Definition exampleBrokenForest : list NavigationTreeValue :=
  [ NavValue "Foo" "class" None
      (Some [NavValue "bar" "method" (Some [exampleSpan]) None]);
    NavValue "Baz" "class" (Some [exampleSpan]) None ].

(** * The rest of [index.ts]

    The functions of [activate] that the first part leaves out: the
    translators of the language service, the handlers of [buffer-enter] and
    [buffer-saved], the unwrapping of file URIs and the client as [activate]
    sets it up. *)

(** ** Further payloads of the host ([protocol.d.ts]) *)

(** [IDisplayPart], declared in [index.ts]. *)
Module IDisplayPart.

Record t := { text : string; kind : string }.

End IDisplayPart.

Module responses.

Record ReferencesResponseItem := {
  ref_file : string;
  ref_start : protocol.Location;
  ref_end : protocol.Location;
  lineText : string }.

Record ReferencesResponseBody := {
  refs : list ReferencesResponseItem;
  symbolName : string }.

Record FileSpan := {
  span_file : string;
  span_start : protocol.Location;
  span_end : protocol.Location }.

Record CodeEdit := {
  edit_start : protocol.Location;
  edit_end : protocol.Location;
  newText : string }.

(** [documentation] may be missing from an entry. *)
Record CompletionEntryDetails := {
  entry_name : string;
  entry_kind : string;
  displayParts : option (list IDisplayPart.t);
  entry_documentation : option (list IDisplayPart.t) }.

Record SignatureHelpParameter := {
  param_displayParts : option (list IDisplayPart.t);
  param_documentation : option (list IDisplayPart.t) }.

Record SignatureHelpItem := {
  isVariadic : bool;
  prefixDisplayParts : option (list IDisplayPart.t);
  suffixDisplayParts : option (list IDisplayPart.t);
  separatorDisplayParts : option (list IDisplayPart.t);
  parameters : list SignatureHelpParameter }.

Record SignatureHelpItems := {
  items : option (list SignatureHelpItem);
  selectedItemIndex : Z;
  argumentIndex : Z;
  argumentCount : Z }.

End responses.

(** The other requests of [TypeScriptServerHost] that return a promise. *)
Inductive HostQuery : Type -> Type :=
| FindAllReferences (file : string) (line col : Z)
  : HostQuery responses.ReferencesResponseBody
| GetTypeDefinition (file : string) (line col : Z)
  : HostQuery (list responses.FileSpan)
| GetFormattingEdits (file : string) (line offset endLine endOffset : Z)
  : HostQuery (list responses.CodeEdit)
| GetCompletionDetails (file : string) (line col : Z)
    (entryNames : list string)
  : HostQuery (list responses.CompletionEntryDetails)
| GetSignatureHelp (file : string) (line col : Z)
  : HostQuery responses.SignatureHelpItems
| GetNavigationTree (file : string)
  : HostQuery NavigationTreeValue.

(** [Promise.resolve(a)], or [host.query(...).then(callback)].  A callback
    that throws rejects the promise that [then] returns. *)
Inductive Chained (A : Type) : Type :=
| Resolved (a : A)
| Then {R : Type} (query : HostQuery R) (callback : R -> Completion A).
Arguments Resolved {A} a.
Arguments Then {A R} query callback.

Definition QueryOracle : Type := forall R : Type, HostQuery R -> Settled R.

Definition outcome {A : Type} (host : QueryOracle) (p : Chained A)
    : Settled A :=
  match p with
  | Resolved a => Fulfilled a
  | Then query callback =>
      match host _ query with
      | Rejected r => Rejected r
      | Fulfilled v =>
          match callback v with
          | Normal a => Fulfilled a
          | Throw e => Rejected (ReasonError e)
          end
      end
  end.

(** The query that a chained promise sends, if it sends one. *)
Inductive SentQuery : Type :=
| Asked {R : Type} (query : HostQuery R).

Definition queryOf {A : Type} (p : Chained A) : option SentQuery :=
  match p with
  | Resolved _ => None
  | Then query _ => Some (Asked query)
  end.

(** ** Further results handed to the editor *)

Record ReferenceItem := {
  fullPath : string;
  ref_line : Z;
  ref_column : Z;
  ref_lineText : string }.

Record ReferencesResult := {
  tokenName : string;
  ref_items : list ReferenceItem }.

Record DefinitionResult := {
  def_filePath : string;
  def_line : Z;
  def_column : Z }.

Record EditPosition := { edit_line : Z; edit_column : Z }.

Record FormattingEdit := {
  fe_start : EditPosition;
  fe_end : EditPosition;
  newValue : string }.

Record FormattingResult := {
  fr_filePath : string;
  fr_version : Z;
  edits : list FormattingEdit }.

Record CompletionDetails := {
  cd_kind : Looked CompletionItemKind.t;
  cd_label : string;
  cd_documentation : option string;
  detail : string }.

Record SignatureParameter := {
  sp_text : string;
  sp_documentation : string }.

Record SignatureItem := {
  variableArguments : bool;
  sig_prefix : string;
  sig_suffix : string;
  sig_separator : string;
  sig_parameters : list SignatureParameter }.

Record SignatureHelpResult := {
  sig_items : list SignatureItem;
  sig_selectedItemIndex : Z;
  sig_argumentCount : Z;
  sig_argumentIndex : Z }.

Inductive HighlightCall : Type :=
| SetHighlights (file scope : string) (highlights : list Highlight).

(** [Oni.EventContext] with its [version], which [getFormattingEdits]
    reads. *)
Record VersionedContext := {
  vc_context : EventContext;
  version : Z }.

(** ** The translators *)

(** [convertToDisplayString].  [None] is a value that is falsy or has no
    [forEach]. *)
Definition convertToDisplayString (displayParts : option (list IDisplayPart.t))
    : string :=
  match displayParts with
  | None => ""
  | Some displayParts =>
      fold_left (fun ret dp => ret +:+ IDisplayPart.text dp) displayParts ""
  end.

Definition mapResponseToItem (referenceItem : responses.ReferencesResponseItem)
    : ReferenceItem :=
  {| fullPath := responses.ref_file referenceItem;
     ref_line := protocol.line (responses.ref_start referenceItem);
     ref_column := protocol.offset (responses.ref_start referenceItem);
     ref_lineText := responses.lineText referenceItem |}.

Definition findAllReferences (textDocumentPosition : EventContext)
    : Chained ReferencesResult :=
  Then
    (FindAllReferences (bufferFullPath textDocumentPosition)
       (line textDocumentPosition) (column textDocumentPosition))
    (fun val =>
       Normal {| tokenName := responses.symbolName val;
                 ref_items := map mapResponseToItem (responses.refs val) |}).

(** [getDefinition]: [val[0]] of an empty answer is [undefined], and
    reading [file] from it raises [TypeError]. *)
Definition getDefinition (textDocumentPosition : EventContext)
    : Chained DefinitionResult :=
  Then
    (GetTypeDefinition (bufferFullPath textDocumentPosition)
       (line textDocumentPosition) (column textDocumentPosition))
    (fun val =>
       match val !! 0%nat with
       | None => Throw TypeError
       | Some val =>
           Normal {| def_filePath := responses.span_file val;
                     def_line := protocol.line (responses.span_start val);
                     def_column :=
                       protocol.offset (responses.span_start val) |}
       end).

Definition toFormattingEdit (v : responses.CodeEdit) : FormattingEdit :=
  let start :=
    {| edit_line := protocol.line (responses.edit_start v);
       edit_column := protocol.offset (responses.edit_start v) |} in
  let end_ :=
    {| edit_line := protocol.line (responses.edit_end v);
       edit_column := protocol.offset (responses.edit_end v) |} in
  {| fe_start := start; fe_end := end_; newValue := responses.newText v |}.

Definition getFormattingEdits (s : PluginState) (position : VersionedContext)
    : Chained FormattingResult :=
  Then
    (GetFormattingEdits (bufferFullPath (vc_context position)) 1 1
       (JsArray.length (lastBuffer s)) 0)
    (fun val =>
       let edits := map toFormattingEdit val in
       Normal {| fr_filePath := bufferFullPath (vc_context position);
                 fr_version := version position;
                 edits := edits |}).

(** [getCompletionDetails].  [None] as position is a falsy
    [textDocumentPosition]; the result [None] is [null]. *)
Definition getCompletionDetails (textDocumentPosition : option EventContext)
    (completionItem : CompletionItem) : Chained (option CompletionDetails) :=
  match textDocumentPosition with
  | None => Resolved None
  | Some textDocumentPosition =>
      if decide (bufferFullPath textDocumentPosition = "") then Resolved None
      else
        Then
          (GetCompletionDetails (bufferFullPath textDocumentPosition)
             (line textDocumentPosition) (column textDocumentPosition)
             [label completionItem])
          (fun details =>
             match details !! 0%nat with
             | None => Normal None
             | Some entry =>
                 Normal (Some
                   {| cd_kind :=
                        convertTypeScriptKindToCompletionItemKind
                          (responses.entry_kind entry);
                      cd_label := responses.entry_name entry;
                      cd_documentation :=
                        match responses.entry_documentation entry with
                        | Some (dp :: _) => Some (IDisplayPart.text dp)
                        | _ => None
                        end;
                      detail :=
                        convertToDisplayString
                          (responses.displayParts entry) |})
             end)
  end.

Definition toSignatureItem (item : responses.SignatureHelpItem)
    : SignatureItem :=
  {| variableArguments := responses.isVariadic item;
     sig_prefix := convertToDisplayString (responses.prefixDisplayParts item);
     sig_suffix := convertToDisplayString (responses.suffixDisplayParts item);
     sig_separator :=
       convertToDisplayString (responses.separatorDisplayParts item);
     sig_parameters :=
       map (fun p =>
              {| sp_text :=
                   convertToDisplayString (responses.param_displayParts p);
                 sp_documentation :=
                   convertToDisplayString (responses.param_documentation p) |})
           (responses.parameters item) |}.

Definition getSignatureHelp (textDocumentPosition : EventContext)
    : Chained SignatureHelpResult :=
  Then
    (GetSignatureHelp (bufferFullPath textDocumentPosition)
       (line textDocumentPosition) (column textDocumentPosition))
    (fun result =>
       let items := default [] (responses.items result) in
       let signatureHelpItems := map toSignatureItem items in
       Normal {| sig_items := signatureHelpItems;
                 sig_selectedItemIndex := responses.selectedItemIndex result;
                 sig_argumentCount := responses.argumentCount result;
                 sig_argumentIndex := responses.argumentIndex result |}).

(** ** Highlights on [buffer-enter] and [buffer-saved] *)

(** The callback of [host.getNavigationTree(...).then]: the children of the
    answer are flattened into a fresh array, which goes to
    [Oni.setHighlights].  An error in the traversal leaves the callback
    before [setHighlights] is reached. *)
Definition publishHighlights (bufferFullPath : string)
    (navTree : NavigationTreeValue) : Completion HighlightCall :=
  match navTree with
  | NavValue _ _ _ childItems =>
      match getHighlightsFromNavTree childItems [] with
      | (highlights, Normal _) =>
          Normal (SetHighlights bufferFullPath "typescript" highlights)
      | (_, Throw e) => Throw e
      end
  end.

(** The handler of [Oni.on("buffer-enter")]. *)
Definition onBufferEnter (args : EventContext) (s : PluginState)
    : PluginState * Chained HighlightCall :=
  (emit (host_openFile (bufferFullPath args)) s,
   Then (GetNavigationTree (bufferFullPath args))
        (publishHighlights (bufferFullPath args))).

(** The handler of [Oni.on("buffer-saved")] calls
    [host.getErrorsAcrossProject] first. *)
Inductive ProjectCall : Type :=
| host_getErrorsAcrossProject (file : string).

Definition onBufferSaved (args : EventContext)
    : ProjectCall * Chained HighlightCall :=
  (host_getErrorsAcrossProject (bufferFullPath args),
   Then (GetNavigationTree (bufferFullPath args))
        (publishHighlights (bufferFullPath args))).

(** ** File URIs *)

(** [s.split(sep)] for a separator that is not empty, from left to right:
    [cur] is the piece being read and [skip] the number of characters of a
    separator just found that are still to pass. *)
Fixpoint splitFrom (sep : string) (skip : nat) (cur : string) (s : string)
    : list string :=
  match s with
  | EmptyString => [cur]
  | String c s' =>
      match skip with
      | S k => splitFrom sep k cur s'
      | O =>
          if String.prefix sep s
          then cur :: splitFrom sep (String.length sep - 1) "" s'
          else splitFrom sep 0 (cur +:+ String c "") s'
      end
  end.

Definition split (sep s : string) : list string := splitFrom sep 0 "" s.

Definition getFilePrefix (platform : string) : string :=
  if decide (platform = "win32") then "file:///" else "file://".

(** [unwrapFileUriPath], given [process.platform] and
    [decodeURIComponent].  The latter turns its argument into a string
    first: [undefined] becomes "undefined". *)
Definition unwrapFileUriPathOn (platform : string)
    (decodeURIComponent : string -> Completion string) (uri : string)
    : Completion string :=
  decodeURIComponent
    (default "undefined" (split (getFilePrefix platform) uri !! 1%nat)).

(** ** The client as [activate] leaves it *)

(** Protocol arguments are [any].  The handlers read [textDocument],
    [position] and [contentChanges]; an argument is told by which of these
    it has. *)
Inductive ProtocolArguments : Type :=
| HoverArguments (p : HoverPayload)
| DidOpenArguments (p : DidOpenPayload)
| DidChangeArguments (p : DidChangePayload)
| OtherArguments.

Definition argumentsTextDocument (payload : ProtocolArguments)
    : option types.TextDocumentIdentifier :=
  match payload with
  | HoverArguments p => Some (textDocument p)
  | DidOpenArguments p => Some (opened_textDocument p)
  | DidChangeArguments p => Some (changed_textDocument p)
  | OtherArguments => None
  end.

Definition argumentsPosition (payload : ProtocolArguments)
    : option types.Position :=
  match payload with
  | HoverArguments p => Some (position p)
  | _ => None
  end.

Definition argumentsContentChanges (payload : ProtocolArguments)
    : option (list types.TextDocumentContentChangeEvent) :=
  match payload with
  | DidChangeArguments p => Some (contentChanges p)
  | _ => None
  end.

Section Activated.

Variable unwrapFileUriPath : string -> Completion string.

(** [protocolOpenFile] on any argument: reading [uri] from a missing
    [textDocument] raises [TypeError]. *)
Definition protocolOpenFileAny
    : NotificationHandler ProtocolArguments PluginState :=
  fun message payload s =>
    match argumentsTextDocument payload with
    | None => (s, Throw TypeError)
    | Some textDocument =>
        protocolOpenFile unwrapFileUriPath message
          {| opened_textDocument := textDocument |} s
    end.

(** [protocolChangeFile] on any argument: the path is unwrapped before
    [contentChanges[0]] is read. *)
Definition protocolChangeFileAny
    : NotificationHandler ProtocolArguments PluginState :=
  fun message payload s =>
    match argumentsTextDocument payload with
    | None => (s, Throw TypeError)
    | Some textDocument =>
        match argumentsContentChanges payload with
        | Some contentChanges =>
            protocolChangeFile unwrapFileUriPath message
              {| changed_textDocument := textDocument;
                 contentChanges := contentChanges |} s
        | None =>
            match unwrapFileUriPath (types.uri textDocument) with
            | Throw e => (s, Throw e)
            | Normal _ => (s, Throw TypeError)
            end
        end
    end.

(** [getQuickInfo] on any argument: the path is unwrapped before
    [position.line] is read. *)
Definition getQuickInfoAny (protocolName : string)
    (payload : ProtocolArguments) : Promise types.Hover :=
  match argumentsTextDocument payload with
  | None => Reject (ReasonError TypeError)
  | Some textDocument =>
      match argumentsPosition payload with
      | Some position =>
          getQuickInfo unwrapFileUriPath protocolName
            {| textDocument := textDocument; position := position |}
      | None =>
          match unwrapFileUriPath (types.uri textDocument) with
          | Throw e => Reject (ReasonError e)
          | Normal _ => Reject (ReasonError TypeError)
          end
      end
  end.

(** The three registrations of [activate], in its order, on a client made
    in the runtime [runtime]. *)
Definition activatedClient
    (runtime : Runtime ProtocolArguments types.Hover PluginState)
    : LightweightLanguageClient ProtocolArguments types.Hover PluginState :=
  (handleRequest
     (handleNotification
        (handleNotification (newClient runtime)
           "textDocument/didOpen" protocolOpenFileAny).1
        "textDocument/didChange" protocolChangeFileAny).1
     "textDocument/hover"
     (fun protocolName payload s =>
        (s, Normal (getQuickInfoAny protocolName payload)))).1.

End Activated.

(** ** Runs of editor events *)

Definition runBufferUpdates (EOL : string)
    (events : list BufferUpdateContext) (s : PluginState) : PluginState :=
  fold_left (fun s args => onBufferUpdate EOL args s) events s.

Definition isOpenFile (e : Effect) : bool :=
  match e with
  | host_openFile _ => true
  | _ => false
  end.

Definition hasPath (args : BufferUpdateContext) : bool :=
  negb (String.eqb (bufferFullPath (bu_eventContext args)) "").

(** The number of spans of a tree of the declared type. *)
Fixpoint spanCount (t : NavigationTree) : nat :=
  match t with
  | NavTree _ _ spans childItems =>
      (List.length spans
       + match childItems with
         | None => 0
         | Some childItems => list_sum (map spanCount childItems)
         end)%nat
  end.

(** A JavaScript array without element at an array index at or past its
    [length]. *)
Definition withinLength (a : JsArray.t) : Prop :=
  forall i,
    0 <= i < 4294967295 -> is_Some (JsArray.get a i) -> i < JsArray.length a.

(** ** Further example data *)

(** A second handler, to register over [exampleRequestHandler]. *)
Definition exampleOtherHandler : RequestHandler unit nat unit :=
  fun _ _ w => (w, Normal (Resolve 8%nat)).

(** A runtime in which a read through a request handler finds what every
    function has under ["call"], ["apply"] and ["bind"]: the methods of
    [Function.prototype], which raise [TypeError] when they are called
    with [this] undefined. *)
Definition exampleFunctionRuntime : Runtime unit nat unit :=
  {| throughRequestHandler :=
       fun _ name =>
         if decide (name ∈ ["call"; "apply"; "bind"]) then
           Some (fun _ _ w => (w, Throw TypeError))
         else None;
     throughNotificationHandler := fun _ _ => None;
     throughEvent := fun _ _ => None |}.

Definition exampleWholeChange : types.TextDocumentContentChangeEvent :=
  {| types.change_range := None; types.text := "let x = 1" |}.

Definition exampleRangedChange : types.TextDocumentContentChangeEvent :=
  {| types.change_range :=
       Some {| types.start := {| types.line := 0; types.character := 0 |};
               types.end_ := {| types.line := 0; types.character := 3 |} |};
     types.text := "var" |}.

Definition exampleDocument : types.TextDocumentIdentifier :=
  {| types.uri := "file:///a.ts" |}.

Definition exampleLongUpdate : BufferUpdateContext :=
  {| bu_eventContext :=
       {| bufferFullPath := "/q.ts"; line := 1; column := 1 |};
     bufferLines := ["let a"; "let b"; "let c"] |}.

Definition exampleSecondLine : IncrementalBufferUpdateContext :=
  {| ibu_eventContext :=
       {| bufferFullPath := "/q.ts"; line := 2; column := 1 |};
     lineNumber := 2;
     bufferLine := "let bb" |}.

Definition exampleSixthLine : IncrementalBufferUpdateContext :=
  {| ibu_eventContext :=
       {| bufferFullPath := "/q.ts"; line := 6; column := 1 |};
     lineNumber := 6;
     bufferLine := "let f" |}.

(** A line number past the last array index. *)
Definition exampleFarLine : IncrementalBufferUpdateContext :=
  {| ibu_eventContext :=
       {| bufferFullPath := "/q.ts"; line := 1; column := 1 |};
     lineNumber := 4294967296;
     bufferLine := "far away" |}.

Definition exampleNoPathUpdate : BufferUpdateContext :=
  {| bu_eventContext := {| bufferFullPath := ""; line := 1; column := 1 |};
     bufferLines := ["scratch"] |}.

Definition exampleFileSpan : responses.FileSpan :=
  {| responses.span_file := "/lib.d.ts";
     responses.span_start := {| protocol.line := 12; protocol.offset := 5 |};
     responses.span_end := {| protocol.line := 12; protocol.offset := 9 |} |}.

(** A host that finds one type definition. *)
Definition exampleQueryHost : QueryOracle :=
  fun R query =>
    match query in HostQuery R return Settled R with
    | FindAllReferences _ _ _ =>
        Fulfilled {| responses.refs := []; responses.symbolName := "x" |}
    | GetTypeDefinition _ _ _ => Fulfilled [exampleFileSpan]
    | GetFormattingEdits _ _ _ _ _ => Fulfilled []
    | GetCompletionDetails _ _ _ _ => Fulfilled []
    | GetSignatureHelp _ _ _ =>
        Fulfilled {| responses.items := None;
                     responses.selectedItemIndex := 0;
                     responses.argumentIndex := 0;
                     responses.argumentCount := 0 |}
    | GetNavigationTree _ => Fulfilled (toValue exampleTree)
    end.

(** A host that finds no type definition and fails every other query. *)
Definition exampleEmptyHost : QueryOracle :=
  fun R query =>
    match query in HostQuery R return Settled R with
    | GetTypeDefinition _ _ _ => Fulfilled []
    | _ => Rejected (ReasonText "no answer")
    end.

Definition exampleVersioned : VersionedContext :=
  {| vc_context := exampleQuery; version := 4 |}.

Definition exampleItem : CompletionItem :=
  {| label := "bar"; item_kind := Absent |}.

(** The position of a query in a buffer that has no path. *)
Definition exampleNoPathQuery : EventContext :=
  {| bufferFullPath := ""; line := 1; column := 7 |}.

Definition exampleEnter : EventContext :=
  {| bufferFullPath := "/q.ts"; line := 1; column := 1 |}.

(** What the query on "foo.ba" resolves to with [exampleHost]. *)
Definition exampleCompletionResult : CompletionResult :=
  {| base := Some "ba";
     completions :=
       [ {| label := "bar"; item_kind := Mapped CompletionItemKind.Method_ |};
         {| label := "baz"; item_kind := Absent |} ] |}.

(** The mirror after one full update of [/q.ts] with a longer line that
    starts as "foo.ba" does. *)
Definition exampleLongerState : PluginState :=
  onBufferUpdate ""
    {| bu_eventContext := bu_eventContext exampleUpdate;
       bufferLines := ["foo.bar(1)"; "second line"] |}
    initialState.

(** [unwrapFileUriPath] with a [decodeURIComponent] that refuses a lone
    percent sign. *)
Definition exampleStrictUnwrap (uri : string) : Completion string :=
  if String.eqb uri "file:///100%" then Throw URIError else exampleUnwrap uri.

Definition exampleBadHover : HoverPayload :=
  {| textDocument := {| types.uri := "file:///100%" |};
     position := {| types.line := 0; types.character := 0 |} |}.

(** A [decodeURIComponent] for strings that have no escape. *)
Definition exampleDecode (s : string) : Completion string := Normal s.

Definition exampleErrorDiagnostic : protocol.Diagnostic :=
  {| protocol.diag_start := protocol.diag_start exampleDiagnostic;
     protocol.diag_end := protocol.diag_end exampleDiagnostic;
     protocol.text := protocol.text exampleDiagnostic;
     protocol.category := "error" |}.

(** * Theorems *)

(** ** Promises *)

Lemma requestsOf_Resolve {A : Type} (host : HostOracle) (a : A) :
  requestsOf host (Resolve a) = [].
Proof. reflexivity. Qed.

Lemma settle_Reject {A : Type} (host : HostOracle) (r : Reason) :
  settle host (Reject (A := A) r) = Rejected r.
Proof. reflexivity. Qed.

(** ** Objects used as dictionaries *)

Section RegistryFacts.

Context {V : Type}.
Implicit Types r : Registry V.

Lemma registryGet_own ofObjectPrototype through r name v :
  own r !! name = Some v ->
  registryGet ofObjectPrototype through r name = Some v.
Proof. intros Hown. unfold registryGet. by rewrite Hown. Qed.

Lemma registryGet_fresh ofObjectPrototype through r name :
  own r !! name = None ->
  replaced r = None ->
  registryGet ofObjectPrototype through r name = ofObjectPrototype name.
Proof.
  intros Hown Hreplaced. unfold registryGet. by rewrite Hown, Hreplaced.
Qed.

Lemma registrySet_completes readOnly r name v :
  name ∉ readOnly -> (registrySet readOnly r name v).2 = Normal tt.
Proof.
  intros Hname. unfold registrySet.
  destruct (own r !! name); [done |].
  case_decide; [done |]. destruct (replaced r); [| done].
  by case_decide.
Qed.

Lemma registrySet_again readOnly r name v v' :
  (registrySet readOnly r name v).2 = Normal tt ->
  (registrySet readOnly (registrySet readOnly r name v).1 name v').2
  = Normal tt.
Proof.
  unfold registrySet at 1 3.
  destruct (own r !! name) eqn:Hown; simpl.
  - intros _. unfold registrySet; simpl. by rewrite lookup_insert_eq.
  - case_decide as Hproto; simpl.
    + intros _. unfold registrySet; simpl. rewrite Hown. by case_decide.
    + destruct (replaced r) eqn:Hreplaced.
      * case_decide; [done |]. simpl. intros _.
        unfold registrySet; simpl. by rewrite lookup_insert_eq.
      * simpl. intros _. unfold registrySet; simpl.
        by rewrite lookup_insert_eq.
Qed.

Lemma registryGet_set ofObjectPrototype through readOnly r name v :
  (registrySet readOnly r name v).2 = Normal tt ->
  registryGet ofObjectPrototype through (registrySet readOnly r name v).1 name
  = Some v.
Proof.
  unfold registrySet.
  destruct (own r !! name) eqn:Hown; simpl.
  - intros _. apply registryGet_own; simpl. apply lookup_insert_eq.
  - case_decide as Hproto; simpl.
    + intros _. unfold registryGet; simpl. rewrite Hown. by case_decide.
    + destruct (replaced r) eqn:Hreplaced.
      * case_decide; [done |]. simpl. intros _.
        apply registryGet_own; simpl. apply lookup_insert_eq.
      * simpl. intros _. apply registryGet_own; simpl.
        apply lookup_insert_eq.
Qed.

Lemma registryGet_set_ne ofObjectPrototype through readOnly r name other v :
  name <> "__proto__" ->
  name <> other ->
  registryGet ofObjectPrototype through (registrySet readOnly r name v).1
    other
  = registryGet ofObjectPrototype through r other.
Proof.
  intros Hproto Hne. unfold registrySet.
  destruct (own r !! name) eqn:Hown; simpl.
  - unfold registryGet; simpl. by rewrite lookup_insert_ne.
  - case_decide; [done |].
    destruct (replaced r) eqn:Hreplaced.
    + case_decide; [done |].
      unfold registryGet; simpl. by rewrite lookup_insert_ne, Hreplaced.
    + unfold registryGet; simpl. by rewrite lookup_insert_ne, Hreplaced.
Qed.

End RegistryFacts.

(** ** The dispatch table *)

Section DispatcherFacts.

Context {Payload Result World : Type}.
Implicit Types c : LightweightLanguageClient Payload Result World.

Lemma handleRequest_runtime c requestName handler :
  runtime (handleRequest c requestName handler).1 = runtime c.
Proof. reflexivity. Qed.

Lemma newClient_runtime (inRuntime : Runtime Payload Result World) :
  runtime (newClient inRuntime) = inRuntime.
Proof. reflexivity. Qed.

Lemma sendRequest_found c fileName requestName args w handler :
  registryGet inheritedRequestHandler (throughRequestHandler (runtime c))
    (_requestHandler c) requestName = Some handler ->
  sendRequest c fileName requestName args w = handler requestName args w.
Proof.
  intros Hfound. unfold sendRequest, RequestHandler in *.
  by rewrite Hfound.
Qed.

Lemma sendRequest_missing c fileName requestName args w :
  registryGet inheritedRequestHandler (throughRequestHandler (runtime c))
    (_requestHandler c) requestName = None ->
  sendRequest c fileName requestName args w
  = (w, Normal (Reject (ReasonText "Not implemented"))).
Proof.
  intros Hnone. unfold sendRequest, RequestHandler in *.
  by rewrite Hnone.
Qed.

Lemma sendRequest_registered c fileName requestName args w handler :
  (handleRequest c requestName handler).2 = Normal tt ->
  sendRequest (handleRequest c requestName handler).1 fileName requestName
    args w
  = handler requestName args w.
Proof.
  intros Hdone. apply sendRequest_found. unfold handleRequest in *; simpl in *.
  by apply registryGet_set.
Qed.

Lemma sendNotification_found c fileName notificationName args w notifier :
  registryGet inheritedNotificationHandler
    (throughNotificationHandler (runtime c)) (_notificationHandler c)
    notificationName = Some notifier ->
  sendNotification c fileName notificationName args w
  = notifier notificationName args w.
Proof.
  intros Hfound. unfold sendNotification, NotificationHandler in *.
  by rewrite Hfound.
Qed.

Lemma sendNotification_missing c fileName notificationName args w :
  registryGet inheritedNotificationHandler
    (throughNotificationHandler (runtime c)) (_notificationHandler c)
    notificationName = None ->
  sendNotification c fileName notificationName args w = (w, Normal tt).
Proof.
  intros Hnone. unfold sendNotification, NotificationHandler in *.
  by rewrite Hnone.
Qed.

Lemma inheritedRequestHandler_none requestName :
  requestName ∉ objectPrototypeMembers ->
  inheritedRequestHandler (Payload := Payload) (Result := Result)
    (World := World) requestName = None.
Proof. intros Hname. unfold inheritedRequestHandler. by case_decide. Qed.

Lemma inheritedNotificationHandler_none notificationName :
  notificationName ∉ objectPrototypeMembers ->
  inheritedNotificationHandler (Payload := Payload) (World := World)
    notificationName = None.
Proof. intros Hname. unfold inheritedNotificationHandler. by case_decide. Qed.

Lemma inheritedEvent_none notificationName :
  notificationName ∉ objectPrototypeMembers ->
  inheritedEvent (Payload := Payload) (World := World) notificationName
  = None.
Proof. intros Hname. unfold inheritedEvent. by case_decide. Qed.

(** C1.  The claim fails on the code for the names that a registry
    inherits from [Object.prototype].  On a client on which nothing was
    registered, a request named ["__proto__"] raises [TypeError]
    synchronously, and requests named ["toString"], ["constructor"] and
    ["isPrototypeOf"] return a value that is no promise instead of a
    rejection for "Not implemented". *)
Theorem sendRequest_inherited_name
    (runtime : Runtime Payload Result World) fileName args w :
  sendRequest (newClient runtime) fileName "__proto__" args w
  = (w, Throw TypeError)
  /\ sendRequest (newClient runtime) fileName "toString" args w
     = (w, Normal (NotPromise (JsString "[object Undefined]")))
  /\ sendRequest (newClient runtime) fileName "constructor" args w
     = (w, Normal (NotPromise (JsStringObject "constructor")))
  /\ sendRequest (newClient runtime) fileName "isPrototypeOf" args w
     = (w, Normal (NotPromise (JsBoolean false)))
  /\ sendRequest (newClient runtime) fileName "valueOf" args w
     = (w, Throw TypeError).
Proof. repeat split. Qed.

(** C8, as the code has it by design.  [sendNotification] raises nothing
    of its own: with a registered handler the call is the synchronous call
    of that handler and completes as the handler does, so that it throws
    exactly when the handler throws; with no handler, for a name that the
    registry does not inherit, it completes normally and changes nothing.
    [notify] on such a name without a subscription completes normally and
    changes nothing.  A registry inherits no other names than those of
    [Object.prototype] as long as nothing was registered under
    ["__proto__"]. *)
Theorem sendNotification_dispatch c fileName notificationName args w :
  (forall notifier,
      own (_notificationHandler c) !! notificationName = Some notifier ->
      sendNotification c fileName notificationName args w
      = notifier notificationName args w)
  /\ (own (_notificationHandler c) !! notificationName = None ->
      replaced (_notificationHandler c) = None ->
      notificationName ∉ objectPrototypeMembers ->
      sendNotification c fileName notificationName args w = (w, Normal tt))
  /\ (forall e,
      replaced (_notificationHandler c) = None ->
      notificationName ∉ objectPrototypeMembers ->
      (sendNotification c fileName notificationName args w).2 = Throw e ->
      exists notifier,
        own (_notificationHandler c) !! notificationName = Some notifier
        /\ (notifier notificationName args w).2 = Throw e)
  /\ (own (_subscriptions c) !! notificationName = None ->
      replaced (_subscriptions c) = None ->
      notificationName ∉ objectPrototypeMembers ->
      notify c notificationName args w = (w, Normal tt)).
Proof.
  split; [| split; [| split]].
  - intros notifier Hown. by apply sendNotification_found, registryGet_own.
  - intros Hown Hreplaced Hname. apply sendNotification_missing.
    rewrite registryGet_fresh by done.
    by apply inheritedNotificationHandler_none.
  - intros e Hreplaced Hname.
    destruct (own (_notificationHandler c) !! notificationName)
      as [notifier |] eqn:Hown.
    + rewrite (sendNotification_found c fileName notificationName args w
                 notifier) by by apply registryGet_own.
      intros Hthrow. by exists notifier.
    + rewrite sendNotification_missing; [discriminate |].
      rewrite registryGet_fresh by done.
      by apply inheritedNotificationHandler_none.
  - intros Hown Hreplaced Hname. unfold notify, Event in *.
    rewrite registryGet_fresh by done.
    by rewrite inheritedEvent_none.
Qed.

End DispatcherFacts.

(** C8, the claim as it is written, fails: the handler that [activate]
    registers for ["textDocument/didChange"] reads [contentChanges[0].range];
    on a notification without changes this raises [TypeError], and
    [sendNotification] lets it through. *)
Lemma sendNotification_handler_throws :
  sendNotification exampleChangeClient "/a.ts" "textDocument/didChange"
    emptyChange initialState
  = (initialState, Throw TypeError).
Proof. reflexivity. Qed.

(** C8 at a concrete client, for a name without handler and for
    ["textDocument/didChange"]. *)
Lemma sendNotification_dispatch_witness :
  sendNotification exampleChangeClient "/a.ts" "textDocument/didSave"
    emptyChange initialState
  = (initialState, Normal tt)
  /\ sendNotification exampleChangeClient "/a.ts" "textDocument/didChange"
       emptyChange initialState
     = protocolChangeFile exampleUnwrap "textDocument/didChange" emptyChange
         initialState
  /\ notify exampleChangeClient "window/logMessage" emptyChange initialState
     = (initialState, Normal tt).
Proof.
  split; [| split].
  - apply (proj1 (proj2 (sendNotification_dispatch exampleChangeClient "/a.ts"
                           "textDocument/didSave" emptyChange initialState)));
      [reflexivity | reflexivity | not_member].
  - apply (proj1 (sendNotification_dispatch exampleChangeClient "/a.ts"
                    "textDocument/didChange" emptyChange initialState)).
    reflexivity.
  - apply (proj2 (proj2 (proj2 (sendNotification_dispatch exampleChangeClient
                           "/a.ts" "window/logMessage" emptyChange
                           initialState))));
      [reflexivity | reflexivity | not_member].
Defined.

(** ** Diagnostics *)

Lemma toDiagnosticError_convertedFrom d :
  convertedFrom d (toDiagnosticError d).
Proof. unfold convertedFrom, toDiagnosticError. simpl. tauto. Qed.

(** C2. A [semanticDiag] event makes one call of [setErrors] whose errors
    are the diagnostics of the event, one for one and in order: both lines
    of the range are the lines of the host minus 1, both offsets are passed
    through, the message is the text of the diagnostic and the severity is
    1 whatever the category of the diagnostic.  A diagnostic that starts on
    line 5 and ends on line 6 gives a range from line 4 to line 5. *)
Theorem onSemanticDiag_converts (ev : protocol.DiagnosticEventBody) :
  (exists errors,
      onSemanticDiag ev
      = SetErrors "typescript-compiler" (protocol.file ev) errors
      /\ Forall2 convertedFrom (default [] (protocol.diagnostics ev)) errors)
  /\ (forall d category',
      severity (toDiagnosticError d) = 1
      /\ toDiagnosticError
           {| protocol.diag_start := protocol.diag_start d;
              protocol.diag_end := protocol.diag_end d;
              protocol.text := protocol.text d;
              protocol.category := category' |}
         = toDiagnosticError d)
  /\ types.line (types.start (range (toDiagnosticError exampleDiagnostic))) = 4
  /\ types.line (types.end_ (range (toDiagnosticError exampleDiagnostic))) = 5.
Proof.
  split; [| split; [| split]]; try reflexivity.
  - eexists. split; [reflexivity |].
    induction (default [] (protocol.diagnostics ev)) as [| d ds IH]; simpl.
    + constructor.
    + constructor; [apply toDiagnosticError_convertedFrom | exact IH].
  - intros d category'. split; reflexivity.
Qed.

(** ** Hover *)

Section HoverFacts.

Variable unwrapFileUriPath : string -> Completion string.

Lemma getQuickInfo_request protocolName payload filePath :
  unwrapFileUriPath (types.uri (textDocument payload)) = Normal filePath ->
  getQuickInfo unwrapFileUriPath protocolName payload
  = Await
      (GetQuickInfo filePath (types.line (position payload) + 1)
         (types.character (position payload) + 1))
      (fun val =>
         Resolve {| types.contents :=
                      [protocol.displayString val;
                       protocol.documentation val] |}).
Proof. intros Hpath. unfold getQuickInfo. by rewrite Hpath. Qed.

(** C9, as the code has it.  A ["textDocument/hover"] request with the
    zero-based position (line, character), sent through the client, asks
    the host for quick info at (line + 1, character + 1): both
    coordinates are moved to the one-based convention of the host.  The
    answer of the host is wrapped as the two-element list
    [displayString; documentation]. *)
Theorem hover_request_position {World : Type}
    (c : LightweightLanguageClient HoverPayload types.Hover World)
    (fileName : string) (payload : HoverPayload) (w : World)
    (filePath : string) (host : HostOracle)
    (val : protocol.QuickInfoResponseBody) :
  unwrapFileUriPath (types.uri (textDocument payload)) = Normal filePath ->
  host _ (GetQuickInfo filePath (types.line (position payload) + 1)
            (types.character (position payload) + 1)) = Fulfilled val ->
  exists p,
    sendRequest
      (handleRequest c "textDocument/hover"
         (getQuickInfoHandler unwrapFileUriPath)).1
      fileName "textDocument/hover" payload w
    = (w, Normal p)
    /\ requestsOf host p
       = [Sent (GetQuickInfo filePath (types.line (position payload) + 1)
                  (types.character (position payload) + 1))]
    /\ settle host p
       = Fulfilled {| types.contents :=
                        [protocol.displayString val;
                         protocol.documentation val] |}.
Proof.
  intros Hpath Hhost.
  exists (getQuickInfo unwrapFileUriPath "textDocument/hover" payload).
  split.
  - rewrite sendRequest_registered; [reflexivity |].
    unfold handleRequest; simpl. apply registrySet_completes. not_member.
  - rewrite (getQuickInfo_request _ _ _ Hpath). simpl.
    rewrite Hhost. split; reflexivity.
Qed.

End HoverFacts.

(** C9, the claim as it is written, fails: for the position (0, 0) the
    claim has the host asked at (0, 1); the code asks at (1, 1). *)
Lemma hover_request_line_is_shifted :
  map requestPosition
    (requestsOf exampleHost
       (getQuickInfo exampleUnwrap "textDocument/hover" exampleHover))
  = [(1, 1)]
  /\ map requestPosition
       (requestsOf exampleHost
          (getQuickInfo exampleUnwrap "textDocument/hover" exampleHover))
     <> [(types.line (position exampleHover),
          types.character (position exampleHover) + 1)].
Proof. split; [reflexivity | discriminate]. Qed.

(** C9 at the position (0, 0) of [file:///a.ts]. *)
Lemma hover_request_position_witness :
  exists p,
    sendRequest exampleHoverClient "/a.ts" "textDocument/hover" exampleHover tt
    = (tt, Normal p)
    /\ requestsOf exampleHost p = [Sent (GetQuickInfo "/a.ts" 1 1)]
    /\ settle exampleHost p
       = Fulfilled {| types.contents := ["const x: number"; ""] |}.
Proof.
  apply (hover_request_position exampleUnwrap (newClient exampleRuntime)
           "/a.ts" exampleHover tt
           "/a.ts" exampleHost
           {| protocol.displayString := "const x: number";
              protocol.documentation := "" |});
    reflexivity.
Defined.

(** ** The buffer mirror *)

Lemma JsArray_get_set_eq a i v : JsArray.get (JsArray.set a i v) i = Some v.
Proof. unfold JsArray.get, JsArray.set; simpl. apply lookup_insert_eq. Qed.

Lemma JsArray_get_set_ne a i j v :
  i <> j -> JsArray.get (JsArray.set a i v) j = JsArray.get a j.
Proof.
  intros Hne. unfold JsArray.get, JsArray.set; simpl.
  by apply lookup_insert_ne.
Qed.

Lemma JsArray_get_of_list l i :
  JsArray.get (JsArray.of_list l) i
  = if decide (0 <= i) then l !! Z.to_nat i else None.
Proof.
  unfold JsArray.get, JsArray.of_list; simpl.
  case_decide as Hi.
  - destruct (l !! Z.to_nat i) as [x|] eqn:Hx.
    + apply lookup_map_seqZ_Some. split; [lia |].
      rewrite <- Hx. f_equal. lia.
    + apply lookup_map_seqZ_None. right.
      apply lookup_ge_None in Hx. lia.
  - apply lookup_map_seqZ_None. left. lia.
Qed.

Section MirrorFacts.

Variable EOL : string.

Lemma onBufferUpdate_effects args s :
  bufferFullPath (bu_eventContext args) <> "" ->
  effects (onBufferUpdate EOL args s)
  = effects s
    ++ [host_openFile (bufferFullPath (bu_eventContext args));
        throttled_updateFile (bufferFullPath (bu_eventContext args))
          (String.concat EOL (bufferLines args))].
Proof.
  intros Hpath. unfold onBufferUpdate.
  case_decide; [done |]. unfold lastOpenFile.
  case_decide; [done |]. simpl. by rewrite <- app_assoc.
Qed.

(** C6, as the code has it.  The plugin keeps one mirror, [lastBuffer],
    for all the documents.  An incremental update with a path and the
    one-based line number n puts the new text at index n - 1 of this
    mirror, leaves what every other index holds as it was (the array grows
    when n - 1 is past its end), and calls [host.changeLineInFile] with
    the path, n and the text: a direct call of the host, not a call of
    the throttled [updateFile]. *)
Theorem onBufferUpdateIncremental_one_line args s :
  bufferFullPath (ibu_eventContext args) <> "" ->
  JsArray.get (lastBuffer (onBufferUpdateIncremental args s))
    (lineNumber args - 1)
  = Some (bufferLine args)
  /\ (forall i,
      i <> lineNumber args - 1 ->
      JsArray.get (lastBuffer (onBufferUpdateIncremental args s)) i
      = JsArray.get (lastBuffer s) i)
  /\ (forall document,
      mirrorOf (onBufferUpdateIncremental args s) document
      = JsArray.set (lastBuffer s) (lineNumber args - 1) (bufferLine args))
  /\ effects (onBufferUpdateIncremental args s)
     = effects s
       ++ [host_changeLineInFile (bufferFullPath (ibu_eventContext args))
             (lineNumber args) (bufferLine args)].
Proof.
  intros Hpath. unfold onBufferUpdateIncremental, mirrorOf.
  case_decide; [done |]. simpl. repeat split.
  - apply JsArray_get_set_eq.
  - intros i Hi. by apply JsArray_get_set_ne.
Qed.

End MirrorFacts.

(** C6, the claim as it is written, fails: after a full update for [/q.ts],
    an incremental update for [/p.ts] rewrites the line that queries on
    [/q.ts] are answered from; the prefix found for the same query on
    [/q.ts] changes from "ba" to "xy". *)
Lemma incremental_update_reaches_other_document :
  bufferFullPath (ibu_eventContext exampleIncrement)
    <> bufferFullPath (bu_eventContext exampleUpdate)
  /\ JsArray.get
       (mirrorOf (onBufferUpdate "" exampleUpdate initialState) "/q.ts") 0
     = Some "foo.ba"
  /\ JsArray.get
       (mirrorOf
          (onBufferUpdateIncremental exampleIncrement
             (onBufferUpdate "" exampleUpdate initialState)) "/q.ts") 0
     = Some "foo.xy"
  /\ completionRequest
       (getCompletions (onBufferUpdate "" exampleUpdate initialState)
          exampleQuery)
     = Some (1, 7, "ba")
  /\ completionRequest
       (getCompletions
          (onBufferUpdateIncremental exampleIncrement
             (onBufferUpdate "" exampleUpdate initialState))
          exampleQuery)
     = Some (1, 7, "xy").
Proof. repeat split; [discriminate | vm_compute; reflexivity ..]. Qed.

(** C6 at line 1 of an empty mirror: the array grows by one line. *)
Lemma onBufferUpdateIncremental_one_line_witness :
  JsArray.get (lastBuffer (onBufferUpdateIncremental exampleIncrement
                             initialState)) 0
  = Some "foo.xy"
  /\ effects (onBufferUpdateIncremental exampleIncrement initialState)
     = [host_changeLineInFile "/p.ts" 1 "foo.xy"].
Proof.
  assert (Hpath : bufferFullPath (ibu_eventContext exampleIncrement) <> "")
    by discriminate.
  split.
  - exact (proj1 (onBufferUpdateIncremental_one_line exampleIncrement
                    initialState Hpath)).
  - exact (proj2 (proj2 (proj2 (onBufferUpdateIncremental_one_line
                                  exampleIncrement initialState Hpath)))).
Defined.

(** C7 on the code: two [buffer-update] events in a row for the same path
    both call [host.openFile]; [lastOpenFile] is [null] before and after. *)
Theorem second_update_opens_again :
  effects (onBufferUpdate "" exampleUpdate
             (onBufferUpdate "" exampleUpdate initialState))
  = [host_openFile "/q.ts"; throttled_updateFile "/q.ts" "foo.ba";
     host_openFile "/q.ts"; throttled_updateFile "/q.ts" "foo.ba"]
  /\ lastOpenFile = None.
Proof. split; reflexivity. Qed.

(** ** The completion prefix *)

Lemma string_app_cons (c : ascii) (s1 s2 : string) :
  String c s1 +:+ s2 = String c (s1 +:+ s2).
Proof. reflexivity. Qed.

Lemma string_app_nil (s : string) : "" +:+ s = s.
Proof. reflexivity. Qed.

Lemma string_get_app_l (s1 s2 : string) (n : nat) :
  (n < String.length s1)%nat ->
  String.get n (s1 +:+ s2) = String.get n s1.
Proof.
  revert n. induction s1 as [| c s1 IH]; intros n Hn; simpl in *; [lia |].
  rewrite ?string_app_cons.
  destruct n as [| n]; [reflexivity |]. simpl. apply IH. lia.
Qed.

Lemma string_get_app_r (s1 s2 : string) (n : nat) :
  String.get (String.length s1 + n) (s1 +:+ s2) = String.get n s2.
Proof.
  induction s1 as [| c s1 IH]; [reflexivity |].
  rewrite ?string_app_cons. simpl. exact IH.
Qed.

Lemma string_get_ge (s : string) (n : nat) :
  (String.length s <= n)%nat -> String.get n s = None.
Proof.
  revert n. induction s as [| c s IH]; intros n Hn; simpl in *.
  - by destruct n.
  - destruct n as [| n]; [lia |]. apply IH. lia.
Qed.

Lemma string_get_lt (s : string) (n : nat) :
  (n < String.length s)%nat -> exists c, String.get n s = Some c.
Proof.
  revert n. induction s as [| c s IH]; intros n Hn; simpl in *; [lia |].
  destruct n as [| n]; [by exists c |]. apply IH. lia.
Qed.

Lemma string_app_assoc (s1 s2 s3 : string) :
  (s1 +:+ s2) +:+ s3 = s1 +:+ (s2 +:+ s3).
Proof.
  induction s1 as [| c s1 IH]; [reflexivity |].
  rewrite ?string_app_cons. by f_equal.
Qed.

Lemma string_length_app (s1 s2 : string) :
  String.length (s1 +:+ s2) = (String.length s1 + String.length s2)%nat.
Proof.
  induction s1 as [| c s1 IH]; [reflexivity |].
  rewrite ?string_app_cons. simpl. by f_equal.
Qed.

Lemma string_app_empty_r (s : string) : s +:+ "" = s.
Proof.
  induction s as [| c s IH]; [reflexivity |].
  rewrite ?string_app_cons. by f_equal.
Qed.

Lemma lastCharacter_snoc (s : string) (c : ascii) :
  lastCharacter (s +:+ String c "") = Some c.
Proof.
  induction s as [| c' s IH]; [reflexivity |].
  rewrite ?string_app_cons. simpl. rewrite IH.
  destruct (s +:+ String c "") eqn:E; [| reflexivity].
  destruct s; discriminate.
Qed.

(** A string is empty or ends with a character. *)
Lemma string_snoc_cases (s : string) :
  s = "" \/ exists s' c, s = s' +:+ String c "".
Proof.
  induction s as [| c s IH]; [by left | right].
  destruct IH as [-> | (s' & c' & ->)].
  - by exists "", c.
  - by exists (String c s'), c'.
Qed.

(** Scanning over a run of identifier characters consumes all of it. *)
Lemma scanPrefix_run (before run rest acc : string) :
  allIdentifier run = true ->
  scanPrefix (Some (before +:+ (run +:+ rest)))
    (String.length before + String.length run) acc
  = scanPrefix (Some (before +:+ (run +:+ rest)))
      (String.length before) (run +:+ acc).
Proof.
  revert before. induction run as [| c run IH]; intros before Hrun.
  - rewrite ?string_app_nil. simpl. by rewrite Nat.add_0_r.
  - simpl in Hrun. apply andb_prop in Hrun as [Hc Hrun].
    replace (before +:+ (String c run +:+ rest))
      with ((before +:+ String c "") +:+ (run +:+ rest))
      by (by rewrite string_app_assoc, ?string_app_cons, ?string_app_nil).
    replace (String.length before + String.length (String c run))%nat
      with (String.length (before +:+ String c "") + String.length run)%nat
      by (rewrite string_length_app; simpl; lia).
    rewrite (IH _ Hrun).
    rewrite string_length_app. simpl String.length.
    rewrite Nat.add_1_r. simpl scanPrefix.
    rewrite string_app_assoc.
    replace (String.length before)
      with (String.length before + 0)%nat at 1 by lia.
    rewrite string_get_app_r, ?string_app_cons. simpl. by rewrite Hc.
Qed.

(** The scan stops on a character outside the identifier class. *)
Lemma scanPrefix_stop (before : string) (c : ascii) (rest acc : string) :
  isIdentifierCharacter c = false ->
  scanPrefix (Some ((before +:+ String c "") +:+ rest))
    (String.length (before +:+ String c "")) acc
  = Normal (acc, Z.of_nat (String.length before)).
Proof.
  intros Hc. rewrite string_length_app. simpl String.length.
  rewrite Nat.add_1_r. simpl scanPrefix.
  rewrite string_app_assoc.
  replace (String.length before)
    with (String.length before + 0)%nat at 1 by lia.
  rewrite string_get_app_r, ?string_app_cons. simpl. by rewrite Hc.
Qed.

(** Within the line the scan does not fail. *)
Lemma scanPrefix_total (l : string) (n : nat) (acc : string) :
  (n <= String.length l)%nat ->
  exists currentPrefix basePos,
    scanPrefix (Some l) n acc = Normal (currentPrefix, basePos)
    /\ -1 <= basePos < Z.of_nat n.
Proof.
  revert acc. induction n as [| n IH]; intros acc Hn; simpl scanPrefix.
  - exists acc, (-1). split; [reflexivity | lia].
  - destruct (string_get_lt l n) as [c Hc]; [lia |]. rewrite Hc.
    destruct (isIdentifierCharacter c).
    + destruct (IH (String c acc)) as (p & b & Hscan & Hb); [lia |].
      exists p, b. split; [exact Hscan | lia].
    + exists acc, (Z.of_nat n). split; [reflexivity | lia].
Qed.

(** [indexOf] gives 0 exactly when the name starts with the prefix. *)
Lemma indexOf_zero_prefix (s p : string) :
  (indexOf s p =? 0)%Z = String.prefix p s.
Proof.
  unfold indexOf. destruct s as [| b s]; simpl.
  - by destruct p.
  - destruct p as [| a p]; [reflexivity |].
    destruct (ascii_dec a b) as [-> | Hne].
    + destruct (String.prefix p s); [reflexivity |].
      destruct (String.index 0 (String b p) s); reflexivity.
    + destruct (String.index 0 (String a p) s); reflexivity.
Qed.

Lemma keepEntry_prefix (currentPrefix : string) (v : protocol.CompletionEntry) :
  keepEntry currentPrefix v = String.prefix currentPrefix (protocol.name v).
Proof.
  unfold keepEntry. rewrite indexOf_zero_prefix.
  destruct currentPrefix; simpl; [by destruct (protocol.name v) | ].
  by rewrite orb_false_r.
Qed.

Lemma getCompletions_early s q :
  column q <= 1 ->
  getCompletions s q = Normal (Resolve {| base := None; completions := [] |}).
Proof. intros Hcol. unfold getCompletions. by case_decide. Qed.

(** The outcome of the scan on a line cut as [before], a run of identifier
    characters that ends just before the cursor, and [rest]. *)
Lemma scanPrefix_cut (before run rest : string) :
  allIdentifier run = true ->
  (forall c, lastCharacter before = Some c -> isIdentifierCharacter c = false) ->
  scanPrefix (Some (before +:+ (run +:+ rest)))
    (String.length before + String.length run) ""
  = Normal (run, Z.of_nat (String.length before) - 1).
Proof.
  intros Hrun Hstop. rewrite (scanPrefix_run _ _ _ _ Hrun).
  rewrite string_app_empty_r.
  destruct (string_snoc_cases before) as [-> | (b & c & ->)].
  - reflexivity.
  - rewrite scanPrefix_stop by (apply Hstop, lastCharacter_snoc).
    rewrite string_length_app. simpl String.length.
    do 2 f_equal. lia.
Qed.

Lemma charAt_last (before : string) (c : ascii) (rest : string) :
  charAt (Some ((before +:+ String c "") +:+ rest))
    (Z.of_nat (String.length (before +:+ String c "")) - 1)
  = Normal (Some c).
Proof.
  unfold charAt. rewrite string_length_app. simpl String.length.
  case_decide; [| lia].
  replace (Z.to_nat (Z.of_nat (String.length before + 1) - 1))
    with (String.length before + 0)%nat by lia.
  by rewrite string_app_assoc, string_get_app_r.
Qed.

(** C3, as the code has it.  With the cursor at column 1 or before, the
    result is an empty completion list and the host is not asked.
    Otherwise, when the mirror holds the line of the query and the line
    reaches the cursor, cut the line at the cursor as [before], then the
    longest run of identifier characters (letters and underscore) that ends
    just before the cursor, then [rest]: the prefix is that run.  If the run
    is empty and the character it stopped on is not ".", the result is an
    empty list and the host is not asked; otherwise the host is asked for
    completions at the position of the query with the prefix, and the
    entries whose name starts with the prefix (all of them for the empty
    prefix) are mapped to label and kind.  The line "foo.ba" with the
    cursor at column 7 gives the prefix "ba". *)
Theorem getCompletions_prefix (s : PluginState) (q : EventContext) :
  (column q <= 1 ->
   getCompletions s q = Normal (Resolve {| base := None; completions := [] |}))
  /\ (forall before run rest : string,
      1 < column q ->
      JsArray.get (lastBuffer s) (line q - 1)
        = Some (before +:+ (run +:+ rest)) ->
      Z.of_nat (String.length before + String.length run) = column q - 1 ->
      allIdentifier run = true ->
      (forall c, lastCharacter before = Some c ->
                 isIdentifierCharacter c = false) ->
      (run = "" /\ lastCharacter before <> Some "."%char ->
       getCompletions s q
       = Normal (Resolve {| base := Some ""; completions := [] |}))
      /\ (run <> "" \/ lastCharacter before = Some "."%char ->
          exists k,
            getCompletions s q
            = Normal (Await (GetCompletions (bufferFullPath q) (line q)
                               (column q) run) k)
            /\ forall val,
                k val
                = Resolve
                    {| base := Some run;
                       completions :=
                         map toCompletionItem
                           (List.filter
                              (fun v => String.prefix run (protocol.name v))
                              val) |}))
  /\ completionRequest (getCompletions exampleState exampleQuery)
     = Some (1, 7, "ba").
Proof.
  split; [apply getCompletions_early | split; [| by vm_compute]].
  intros before run rest Hcol Hline Hlen Hrun Hstop.
  assert (Hscan :
    getCompletions s q
    = let answer :=
        Normal (Await (GetCompletions (bufferFullPath q) (line q) (column q) run)
          (fun val =>
             Resolve {| base := Some run;
                        completions :=
                          map toCompletionItem
                            (List.filter (fun v => keepEntry run v) val) |})) in
      if (String.length run =? 0)%nat then
        match charAt (Some (before +:+ (run +:+ rest)))
                (Z.of_nat (String.length before) - 1) with
        | Throw e => Throw e
        | Normal c =>
            if decide (c = Some "."%char) then answer
            else Normal (Resolve {| base := Some run; completions := [] |})
        end
      else answer).
  { unfold getCompletions. case_decide; [lia |].
    rewrite Hline.
    replace (Z.to_nat (column q - 2 + 1))
      with (String.length before + String.length run)%nat by lia.
    by rewrite (scanPrefix_cut _ _ _ Hrun Hstop). }
  rewrite Hscan. clear Hscan. cbv zeta. split.
  - intros [-> Hdot]. cbn [String.length Nat.eqb].
    destruct (string_snoc_cases before) as [-> | (b & c & ->)].
    + simpl in Hlen. lia.
    + rewrite string_app_nil, charAt_last. rewrite lastCharacter_snoc in Hdot.
      by case_decide.
  - intros Hask.
    eexists. split.
    + destruct run as [| a run].
      * destruct Hask as [Hne | Hdot]; [done |]. cbn [String.length Nat.eqb].
        destruct (string_snoc_cases before) as [-> | (b & c & ->)];
          [discriminate |].
        rewrite string_app_nil, charAt_last.
        rewrite lastCharacter_snoc in Hdot. case_decide; [| done].
        reflexivity.
      * reflexivity.
    + intros val. simpl. do 3 f_equal.
      apply List.filter_ext. intros v. apply keepEntry_prefix.
Qed.

Lemma allIdentifier_snoc (run : string) (c : ascii) :
  allIdentifier run = true -> isIdentifierCharacter c = true ->
  allIdentifier (run +:+ String c "") = true.
Proof.
  intros Hrun Hc. induction run as [| a run IH].
  - simpl. by rewrite Hc.
  - rewrite string_app_cons. simpl in *.
    apply andb_prop in Hrun as [Ha Hrun]. by rewrite Ha, IH.
Qed.

(** Every line that reaches the cursor can be cut as [getCompletions_prefix]
    asks, so that theorem covers every such query. *)
Lemma line_cut_exists (l : string) (n : nat) :
  (n <= String.length l)%nat ->
  exists before run rest,
    l = before +:+ (run +:+ rest)
    /\ (String.length before + String.length run)%nat = n
    /\ allIdentifier run = true
    /\ (forall c, lastCharacter before = Some c ->
                  isIdentifierCharacter c = false).
Proof.
  induction n as [| n IH]; intros Hn.
  - exists "", "", l. repeat split. intros c. discriminate.
  - destruct IH as (before & run & rest & -> & Hlen & Hrun & Hstop); [lia |].
    destruct rest as [| c rest].
    { rewrite !string_length_app in Hn. simpl in Hn. lia. }
    destruct (isIdentifierCharacter c) eqn:Hc.
    + exists before, (run +:+ String c ""), rest. repeat split.
      * by rewrite string_app_assoc.
      * rewrite string_length_app. simpl. lia.
      * by apply allIdentifier_snoc.
      * exact Hstop.
    + exists ((before +:+ run) +:+ String c ""), "", rest. repeat split.
      * by rewrite string_app_nil, !string_app_assoc.
      * rewrite !string_length_app. simpl. lia.
      * intros c'. rewrite lastCharacter_snoc. by intros [= <-].
Qed.

(** C3, the claim as it is written, fails: on a mirror without lines, a
    query at column 2 is past column 1, and yet no prefix is formed, no
    list is returned and the host is not asked: the call throws. *)
Lemma getCompletions_throws_on_empty_mirror :
  1 < column earlyQuery
  /\ getCompletions initialState earlyQuery = Throw TypeError
  /\ forall p, getCompletions initialState earlyQuery <> Normal p.
Proof. repeat split; [discriminate]. Qed.

(** C3 on the line "foo.ba" with the cursor at column 7, cut as "foo.",
    "ba" and the empty rest, and at column 1. *)
Lemma getCompletions_prefix_witness :
  getCompletions exampleState
    {| bufferFullPath := "/q.ts"; line := 1; column := 1 |}
  = Normal (Resolve {| base := None; completions := [] |})
  /\ exists k,
      getCompletions exampleState exampleQuery
      = Normal (Await (GetCompletions "/q.ts" 1 7 "ba") k)
      /\ forall val,
          k val
          = Resolve
              {| base := Some "ba";
                 completions :=
                   map toCompletionItem
                     (List.filter
                        (fun v => String.prefix "ba" (protocol.name v))
                        val) |}.
Proof.
  split.
  - apply (proj1 (getCompletions_prefix exampleState
                    {| bufferFullPath := "/q.ts"; line := 1; column := 1 |})).
    simpl. lia.
  - apply (proj2 (proj1 (proj2 (getCompletions_prefix exampleState
                                  exampleQuery))
                    "foo." "ba" "" ltac:(simpl; lia) ltac:(vm_compute; reflexivity)
                    ltac:(reflexivity) ltac:(reflexivity)
                    ltac:(intros c [= <-]; reflexivity))).
    left. discriminate.
Defined.

(** ** Faults of the prefix scan *)

(** C10.  For a query with the cursor at column 2 or more: if the mirror
    has no line at index [line - 1], or that line is shorter than
    [column - 1], the scan reads an undefined character (or an undefined
    line) and [getCompletions] throws a [TypeError] instead of returning a
    promise; if the line is there and reaches the cursor, [getCompletions]
    returns a promise. *)
Theorem getCompletions_fault (s : PluginState) (q : EventContext) :
  2 <= column q ->
  (JsArray.get (lastBuffer s) (line q - 1) = None
   \/ (exists l, JsArray.get (lastBuffer s) (line q - 1) = Some l
                 /\ Z.of_nat (String.length l) < column q - 1) ->
   getCompletions s q = Throw TypeError)
  /\ ((exists l, JsArray.get (lastBuffer s) (line q - 1) = Some l
                 /\ column q - 1 <= Z.of_nat (String.length l)) ->
      exists p, getCompletions s q = Normal p).
Proof.
  intros Hcol.
  assert (Hsucc : exists n, Z.to_nat (column q - 2 + 1) = S n
                            /\ Z.of_nat n = column q - 2).
  { exists (Z.to_nat (column q - 2)). split; lia. }
  destruct Hsucc as (n & Hsucc & Hn).
  split.
  - intros Hbad. unfold getCompletions. case_decide; [lia |].
    rewrite Hsucc.
    destruct Hbad as [-> | (l & -> & Hshort)]; [reflexivity |].
    simpl. by rewrite string_get_ge by lia.
  - intros (l & Hline & Hlong). unfold getCompletions.
    case_decide; [lia |]. rewrite Hline.
    destruct (scanPrefix_total l (Z.to_nat (column q - 2 + 1)) "")
      as (currentPrefix & basePos & -> & Hbase); [lia |].
    destruct (String.length currentPrefix =? 0)%nat; [| by eexists].
    unfold charAt. case_decide; case_decide; by eexists.
Qed.

(** C10 on the line "foo.ba" with the cursor at column 9. *)
Lemma getCompletions_fault_witness :
  2 <= column farQuery
  /\ getCompletions exampleState farQuery = Throw TypeError.
Proof.
  split; [simpl; lia |].
  apply (proj1 (getCompletions_fault exampleState farQuery
                  ltac:(simpl; lia))).
  right. exists "foo.ba". split; [vm_compute; reflexivity | simpl; lia].
Defined.

(** ** Highlights *)

Lemma NavigationTree_forest_ind (P : NavigationTree -> Prop) :
  (forall text kind spans, P (NavTree text kind spans None)) ->
  (forall text kind spans childItems,
      Forall P childItems -> P (NavTree text kind spans (Some childItems))) ->
  forall t, P t.
Proof.
  intros Hleaf Hnode. fix IH 1. intros [text kind spans [childItems |]].
  - apply Hnode.
    induction childItems as [| c childItems IHc]; constructor;
      [apply IH | exact IHc].
  - apply Hleaf.
Qed.

Lemma NavigationTreeValue_forest_ind (P : NavigationTreeValue -> Prop) :
  (forall text kind spans, P (NavValue text kind spans None)) ->
  (forall text kind spans childItems,
      Forall P childItems -> P (NavValue text kind spans (Some childItems))) ->
  forall t, P t.
Proof.
  intros Hleaf Hnode. fix IH 1. intros [text kind spans [childItems |]].
  - apply Hnode.
    induction childItems as [| c childItems IHc]; constructor;
      [apply IH | exact IHc].
  - apply Hleaf.
Qed.

Lemma pushSpans_entries highlightKind text spans highlights :
  pushSpans highlightKind text spans highlights
  = highlights
    ++ map (fun _ => {| highlightKind := highlightKind; token := text |}) spans.
Proof.
  unfold pushSpans. revert highlights.
  induction spans as [| sp spans IH]; intros highlights; simpl.
  - by rewrite app_nil_r.
  - rewrite IH. by rewrite <- app_assoc.
Qed.

Lemma visitItem_children text kind spans childItems highlights :
  visitItem (NavValue text kind (Some spans) (Some childItems)) highlights
  = forEachItem childItems
      (pushSpans (lookUp kindToHighlightGroup kind) text spans highlights).
Proof. reflexivity. Qed.

Lemma visitItem_leaf text kind spans highlights :
  visitItem (NavValue text kind (Some spans) None) highlights
  = (pushSpans (lookUp kindToHighlightGroup kind) text spans highlights,
     Normal tt).
Proof. reflexivity. Qed.

Lemma visitItem_absent text kind childItems highlights :
  visitItem (NavValue text kind None childItems) highlights
  = (highlights, Throw TypeError).
Proof. reflexivity. Qed.

Lemma forEachItem_cons_normal c l highlights highlights' :
  visitItem c highlights = (highlights', Normal tt) ->
  forEachItem (c :: l) highlights = forEachItem l highlights'.
Proof. intros Hc. simpl. by rewrite Hc. Qed.

Lemma forEachItem_cons_throw c l highlights highlights' e :
  visitItem c highlights = (highlights', Throw e) ->
  forEachItem (c :: l) highlights = (highlights', Throw e).
Proof. intros Hc. simpl. by rewrite Hc. Qed.

Lemma forEachItem_preorder (childItems : list NavigationTree) :
  Forall (fun t => forall highlights,
              visitItem (toValue t) highlights
              = (highlights ++ preorder t, Normal tt)) childItems ->
  forall highlights,
    forEachItem (map toValue childItems) highlights
    = (highlights ++ List.flat_map preorder childItems, Normal tt).
Proof.
  induction 1 as [| c childItems Hc _ IH]; intros highlights; simpl map.
  - simpl. by rewrite app_nil_r.
  - rewrite (forEachItem_cons_normal _ _ _ _ (Hc highlights)), IH.
    simpl. by rewrite app_assoc.
Qed.

Lemma visitItem_preorder (t : NavigationTree) :
  forall highlights,
    visitItem (toValue t) highlights = (highlights ++ preorder t, Normal tt).
Proof.
  induction t as [text kind spans | text kind spans childItems IH]
    using NavigationTree_forest_ind; intros highlights.
  - simpl toValue. rewrite visitItem_leaf, pushSpans_entries.
    simpl. by rewrite app_nil_r.
  - simpl toValue. rewrite visitItem_children, pushSpans_entries.
    rewrite (forEachItem_preorder _ IH). simpl preorder.
    by rewrite app_assoc.
Qed.

(** C4.  The claim fails on the code for a kind that is the name of a
    member of [Object.prototype].  ["constructor"], the kind of the
    constructor of a class, is not in [kindToHighlightGroup], and the
    lookup gives the inherited member, the function [Object], instead of
    [undefined]: the two entries of a class with a constructor are the
    group of the class and that function.  A kind that is neither in the
    table nor such a name gives [undefined]. *)
Theorem getHighlightsFromNavTree_constructor_kind :
  kindToHighlightGroup !! "constructor" = None
  /\ lookUp kindToHighlightGroup "constructor" = Inherited "constructor"
  /\ getHighlightsFromNavTree (Some [toValue exampleClassTree]) []
     = ([ {| highlightKind := Mapped SymbolKind.Class_; token := "Foo" |};
          {| highlightKind := Inherited "constructor";
             token := "constructor" |} ],
        Normal tt)
  /\ lookUp kindToHighlightGroup "no such kind" = Absent.
Proof. repeat split. Qed.

Lemma forEachItem_outcome_of (l : list NavigationTreeValue) :
  Forall (fun t => forall highlights,
              exists pushed,
                visitItem t highlights
                = (highlights ++ pushed,
                   if allSpansPresent t then Normal tt else Throw TypeError))
         l ->
  forall highlights,
    exists pushed,
      forEachItem l highlights
      = (highlights ++ pushed,
         if forallb allSpansPresent l then Normal tt else Throw TypeError).
Proof.
  induction 1 as [| c l Hc _ IH]; intros highlights.
  - exists []. simpl. by rewrite app_nil_r.
  - destruct (Hc highlights) as [pushed Hvisit]. simpl forallb.
    destruct (allSpansPresent c).
    + rewrite (forEachItem_cons_normal _ _ _ _ Hvisit).
      destruct (IH (highlights ++ pushed)) as [pushed' ->].
      exists (pushed ++ pushed'). by rewrite app_assoc.
    + rewrite (forEachItem_cons_throw _ _ _ _ _ Hvisit).
      by exists pushed.
Qed.

Lemma visitItem_outcome (t : NavigationTreeValue) :
  forall highlights,
    exists pushed,
      visitItem t highlights
      = (highlights ++ pushed,
         if allSpansPresent t then Normal tt else Throw TypeError).
Proof.
  induction t as [text kind spans | text kind spans childItems IH]
    using NavigationTreeValue_forest_ind; intros highlights.
  - destruct spans as [spans |].
    + rewrite visitItem_leaf, pushSpans_entries. by eexists.
    + rewrite visitItem_absent. exists []. by rewrite app_nil_r.
  - destruct spans as [spans |].
    + rewrite visitItem_children, pushSpans_entries. simpl allSpansPresent.
      destruct (forEachItem_outcome_of _ IH
                  (highlights ++ entriesOf text kind spans))
        as [pushed Hforest].
      exists (entriesOf text kind spans ++ pushed).
      rewrite app_assoc. exact Hforest.
    + rewrite visitItem_absent. exists []. by rewrite app_nil_r.
Qed.

Lemma forEachItem_outcome (l : list NavigationTreeValue) highlights :
  exists pushed,
    forEachItem l highlights
    = (highlights ++ pushed,
       if forallb allSpansPresent l then Normal tt else Throw TypeError).
Proof.
  apply forEachItem_outcome_of, Forall_forall.
  intros t _. apply visitItem_outcome.
Qed.

(** C5, as the code has it.  A node whose [spans] is an empty array adds
    no entry and the traversal goes on with its children.  A node whose
    [spans] is absent makes the traversal throw a [TypeError]: the
    flattening completes exactly when no node lacks its [spans]; when the
    node is met, what was pushed before it stays in the accumulator and the
    nodes after it are not visited, whatever they are. *)
Theorem getHighlightsFromNavTree_absent_spans
    (navTree : list NavigationTreeValue) (highlights : list Highlight) :
  (forall text kind childItems,
      visitItem (NavValue text kind (Some []) childItems) highlights
      = getHighlightsFromNavTree childItems highlights)
  /\ (exists pushed,
      getHighlightsFromNavTree (Some navTree) highlights
      = (highlights ++ pushed,
         if forallb allSpansPresent navTree
         then Normal tt else Throw TypeError))
  /\ (forall before text kind childItems after,
      forallb allSpansPresent before = true ->
      navTree = before ++ NavValue text kind None childItems :: after ->
      getHighlightsFromNavTree (Some navTree) highlights
      = ((forEachItem before highlights).1, Throw TypeError)).
Proof.
  split; [| split].
  - intros text kind [childItems |]; reflexivity.
  - apply forEachItem_outcome.
  - intros before text kind childItems after Hbefore ->.
    unfold getHighlightsFromNavTree. revert highlights Hbefore.
    induction before as [| c before IH]; intros highlights Hbefore.
    + reflexivity.
    + simpl in Hbefore. apply andb_prop in Hbefore as [Hc Hbefore].
      destruct (visitItem_outcome c highlights) as [pushed Hvisit].
      rewrite Hc in Hvisit. simpl app.
      rewrite !(forEachItem_cons_normal _ _ _ _ Hvisit).
      by apply IH.
Qed.

(** C5, the claim as it is written, fails: the first class has no [spans];
    the traversal throws on it, nothing is emitted for its method nor for
    the class that follows. *)
Lemma getHighlightsFromNavTree_throws_without_spans :
  getHighlightsFromNavTree (Some exampleBrokenForest) []
  = ([], Throw TypeError).
Proof. reflexivity. Qed.

(** C5 on the same forest. *)
Lemma getHighlightsFromNavTree_absent_spans_witness :
  getHighlightsFromNavTree (Some exampleBrokenForest) []
  = ((forEachItem [] []).1, Throw TypeError).
Proof.
  apply (proj2 (proj2 (getHighlightsFromNavTree_absent_spans
                         exampleBrokenForest []))
           [] "Foo" "class"
           (Some [NavValue "bar" "method" (Some [exampleSpan]) None])
           [NavValue "Baz" "class" (Some [exampleSpan]) None]);
    reflexivity.
Defined.

(** * Further properties *)

(** ** Registration *)

Section RegistrationFacts.

Context {Payload Result World : Type}.
Implicit Types c : LightweightLanguageClient Payload Result World.

(** X1. Registration overwrites: when two handlers are registered one after
    the other under the same name, the second one answers; the same holds
    for notification handlers and for subscriptions.  A registration of a
    handler can raise an error (the name is a property of a function that
    cannot be written, and a function is the prototype of the registry):
    when the first one completes, so does the second.  Registrations
    under a name other than the four names of such properties, and all
    subscriptions, complete. *)
Theorem registration_last_writer_wins c name fileName args w :
  (forall h1 h2,
      (handleRequest c name h1).2 = Normal tt ->
      (handleRequest (handleRequest c name h1).1 name h2).2 = Normal tt
      /\ sendRequest (handleRequest (handleRequest c name h1).1 name h2).1
           fileName name args w
         = h2 name args w)
  /\ (forall n1 n2,
      (handleNotification c name n1).2 = Normal tt ->
      (handleNotification (handleNotification c name n1).1 name n2).2
      = Normal tt
      /\ sendNotification
           (handleNotification (handleNotification c name n1).1 name n2).1
           fileName name args w
         = n2 name args w)
  /\ (forall e1 e2,
      (subscribe (subscribe c name e1).1 name e2).2 = Normal tt
      /\ notify (subscribe (subscribe c name e1).1 name e2).1 name args w
         = e2 args w)
  /\ (name ∉ functionReadOnly ->
      (forall h, (handleRequest c name h).2 = Normal tt)
      /\ (forall n, (handleNotification c name n).2 = Normal tt)).
Proof.
  split; [| split; [| split]].
  - intros h1 h2 Hfirst.
    assert (Hsecond :
              (handleRequest (handleRequest c name h1).1 name h2).2
              = Normal tt).
    { unfold handleRequest in *; simpl in *. by apply registrySet_again. }
    split; [exact Hsecond | by apply sendRequest_registered].
  - intros n1 n2 Hfirst.
    assert (Hsecond :
              (handleNotification (handleNotification c name n1).1 name n2).2
              = Normal tt).
    { unfold handleNotification in *; simpl in *.
      by apply registrySet_again. }
    split; [exact Hsecond |].
    apply sendNotification_found.
    unfold handleNotification in *; simpl in *. by apply registryGet_set.
  - intros e1 e2.
    assert (Hsecond :
              (subscribe (subscribe c name e1).1 name e2).2 = Normal tt).
    { unfold subscribe; simpl. apply registrySet_completes.
      apply not_elem_of_nil. }
    split; [exact Hsecond |].
    unfold notify, Event, subscribe in *; simpl in *.
    by rewrite registryGet_set.
  - intros Hname. split.
    + intros h. unfold handleRequest; simpl.
      by apply registrySet_completes.
    + intros n. unfold handleNotification; simpl.
      by apply registrySet_completes.
Qed.

(** X2. Registration under a name other than ["__proto__"] leaves every
    other name as it was: requests, notifications and published events
    under another name are handled as before.  (A registration under
    ["__proto__"] replaces the prototype of the registry, and with it what
    the names that are not registered resolve to.) *)
Theorem registration_other_names c name other fileName args w :
  name <> "__proto__" ->
  name <> other ->
  (forall h,
      sendRequest (handleRequest c name h).1 fileName other args w
      = sendRequest c fileName other args w)
  /\ (forall n,
      sendNotification (handleNotification c name n).1 fileName other args w
      = sendNotification c fileName other args w)
  /\ (forall e,
      notify (subscribe c name e).1 other args w = notify c other args w).
Proof.
  intros Hproto Hne. split; [| split].
  - intros h. unfold sendRequest, handleRequest, RequestHandler; simpl.
    by rewrite registryGet_set_ne.
  - intros n. unfold sendNotification, handleNotification,
      NotificationHandler; simpl.
    by rewrite registryGet_set_ne.
  - intros e. unfold notify, subscribe, Event; simpl.
    by rewrite registryGet_set_ne.
Qed.

(** X3. The three tables are apart: a request handler is never called for
    a notification or a published event of the same name, a notification
    handler never answers a request, and a subscription is never used to
    handle a request or a notification. *)
Theorem registries_are_independent c name fileName asked args w :
  (forall h,
      sendNotification (handleRequest c name h).1 fileName asked args w
      = sendNotification c fileName asked args w
      /\ notify (handleRequest c name h).1 asked args w
         = notify c asked args w)
  /\ (forall n,
      sendRequest (handleNotification c name n).1 fileName asked args w
      = sendRequest c fileName asked args w
      /\ notify (handleNotification c name n).1 asked args w
         = notify c asked args w)
  /\ (forall e,
      sendRequest (subscribe c name e).1 fileName asked args w
      = sendRequest c fileName asked args w
      /\ sendNotification (subscribe c name e).1 fileName asked args w
         = sendNotification c fileName asked args w).
Proof. repeat split. Qed.

(** X28. A request whose name was registered with [handleRequest] is
    answered by the registered handler: [sendRequest] gives back exactly
    what the handler gives (its promise, unchanged).  On a registry that
    has its first prototype, a request whose name has no handler and is
    not the name of a member of [Object.prototype] completes normally
    (nothing is thrown) with a promise rejected for the reason
    "Not implemented", and changes nothing. *)
Theorem sendRequest_dispatch c fileName requestName args w :
  (forall handler,
      (handleRequest c requestName handler).2 = Normal tt ->
      sendRequest (handleRequest c requestName handler).1
                  fileName requestName args w
      = handler requestName args w)
  /\ (forall handler,
      own (_requestHandler c) !! requestName = Some handler ->
      sendRequest c fileName requestName args w
      = handler requestName args w)
  /\ (own (_requestHandler c) !! requestName = None ->
      replaced (_requestHandler c) = None ->
      requestName ∉ objectPrototypeMembers ->
      sendRequest c fileName requestName args w
      = (w, Normal (Reject (ReasonText "Not implemented")))
      /\ forall host : HostOracle,
          settle host (Reject (A := Result) (ReasonText "Not implemented"))
          = Rejected (ReasonText "Not implemented")).
Proof.
  split; [| split].
  - intros handler. apply sendRequest_registered.
  - intros handler Hown. by apply sendRequest_found, registryGet_own.
  - intros Hown Hreplaced Hname. split; [| reflexivity].
    apply sendRequest_missing. rewrite registryGet_fresh by done.
    by apply inheritedRequestHandler_none.
Qed.

End RegistrationFacts.

(** X1 with two handlers for ["textDocument/hover"]. *)
Lemma registration_last_writer_wins_witness :
  sendRequest
    (handleRequest exampleClient "textDocument/hover" exampleOtherHandler).1
    "/a.ts" "textDocument/hover" tt tt
  = (tt, Normal (Resolve 8%nat)).
Proof.
  exact (proj2 (proj1 (registration_last_writer_wins
                         (newClient exampleRuntime) "textDocument/hover"
                         "/a.ts" tt tt)
                  exampleRequestHandler exampleOtherHandler eq_refl)).
Defined.

(** X2 with a handler for ["textDocument/hover"] and a request for
    ["textDocument/definition"]. *)
Lemma registration_other_names_witness :
  sendRequest exampleClient "/a.ts" "textDocument/definition" tt tt
  = sendRequest (Payload := unit) (Result := nat)
      (newClient exampleRuntime) "/a.ts" "textDocument/definition" tt tt.
Proof.
  apply (proj1 (registration_other_names (newClient exampleRuntime)
                  "textDocument/hover" "textDocument/definition" "/a.ts"
                  tt tt ltac:(discriminate) ltac:(discriminate))
           exampleRequestHandler).
Defined.

(** X28 at a concrete client: one handler under ["textDocument/hover"]. *)
Lemma sendRequest_dispatch_witness :
  sendRequest exampleClient "/a.ts" "textDocument/hover" tt tt
  = (tt, Normal (Resolve 7%nat))
  /\ sendRequest exampleClient "/a.ts" "textDocument/definition" tt tt
     = (tt, Normal (Reject (ReasonText "Not implemented"))).
Proof.
  split.
  - apply (proj1 (proj2 (sendRequest_dispatch exampleClient "/a.ts"
                           "textDocument/hover" tt tt))
             exampleRequestHandler).
    reflexivity.
  - apply (proj2 (proj2 (sendRequest_dispatch exampleClient "/a.ts"
                           "textDocument/definition" tt tt)));
      [reflexivity | reflexivity | not_member].
Defined.

(** X30. A handler registered under ["__proto__"] becomes the prototype
    of the registry instead of an entry of it.  On a new client, a request
    named ["__proto__"] is then answered by that handler, a request under
    another name is answered by what the runtime finds under that name
    through the handler (a property of the function, such as ["call"]), and
    rejected for "Not implemented" only when nothing is found; the names
    of [Object.prototype] no longer resolve to its members directly.  A
    later registration under ["length"] or ["name"] raises [TypeError] and
    registers nothing. *)
Theorem registration_under_proto {Payload Result World : Type}
    (runtime : Runtime Payload Result World)
    (handler later : RequestHandler Payload Result World)
    (fileName other : string) (args : Payload) (w : World) :
  other <> "__proto__" ->
  (handleRequest (newClient runtime) "__proto__" handler).2 = Normal tt
  /\ own (_requestHandler
            (handleRequest (newClient runtime) "__proto__" handler).1)
     = ∅
  /\ sendRequest (handleRequest (newClient runtime) "__proto__" handler).1
       fileName "__proto__" args w
     = handler "__proto__" args w
  /\ sendRequest (handleRequest (newClient runtime) "__proto__" handler).1
       fileName other args w
     = match throughRequestHandler runtime handler other with
       | Some found => found other args w
       | None => (w, Normal (Reject (ReasonText "Not implemented")))
       end
  /\ handleRequest (handleRequest (newClient runtime) "__proto__" handler).1
       "length" later
     = ((handleRequest (newClient runtime) "__proto__" handler).1,
        Throw TypeError)
  /\ handleRequest (handleRequest (newClient runtime) "__proto__" handler).1
       "name" later
     = ((handleRequest (newClient runtime) "__proto__" handler).1,
        Throw TypeError).
Proof.
  intros Hother. repeat split.
  unfold sendRequest, registryGet, RequestHandler.
  change (_requestHandler
            (handleRequest (newClient runtime) "__proto__" handler).1)
    with {| own := ∅; replaced := Some handler |}.
  rewrite handleRequest_runtime, newClient_runtime.
  cbn [own replaced]. rewrite lookup_empty. by case_decide.
Qed.

(** X30 for a request named ["call"]: what answers is
    [Function.prototype.call]. *)
Lemma registration_under_proto_witness :
  sendRequest
    (handleRequest (newClient exampleFunctionRuntime) "__proto__"
       exampleRequestHandler).1
    "/a.ts" "call" tt tt
  = (tt, Throw TypeError).
Proof.
  exact (proj1 (proj2 (proj2 (proj2 (registration_under_proto
                                       exampleFunctionRuntime
                                       exampleRequestHandler
                                       exampleOtherHandler "/a.ts" "call"
                                       tt tt ltac:(discriminate)))))).
Defined.

(** ** The client of [activate] *)

Section ActivatedFacts.

Variable unwrapFileUriPath : string -> Completion string.
Variable runtime : Runtime ProtocolArguments types.Hover PluginState.

Lemma protocolOpenFile_state message payload s :
  exists more,
    lastBuffer (protocolOpenFile unwrapFileUriPath message payload s).1
    = lastBuffer s
    /\ effects (protocolOpenFile unwrapFileUriPath message payload s).1
       = effects s ++ more
    /\ (List.length more <= 1)%nat.
Proof.
  unfold protocolOpenFile.
  destruct (unwrapFileUriPath _) as [filePath | e]; simpl.
  - eexists [_]. repeat split. simpl. lia.
  - exists []. rewrite app_nil_r. repeat split. simpl. lia.
Qed.

Lemma protocolChangeFile_state message payload s :
  exists more,
    lastBuffer (protocolChangeFile unwrapFileUriPath message payload s).1
    = lastBuffer s
    /\ effects (protocolChangeFile unwrapFileUriPath message payload s).1
       = effects s ++ more
    /\ (List.length more <= 1)%nat.
Proof.
  unfold protocolChangeFile.
  destruct (unwrapFileUriPath _) as [filePath | e]; simpl;
    [| exists []; rewrite app_nil_r; repeat split; simpl; lia].
  destruct (contentChanges payload !! 0%nat) as [change |]; simpl;
    [| exists []; rewrite app_nil_r; repeat split; simpl; lia].
  destruct (types.change_range change); simpl.
  - exists []. rewrite app_nil_r. repeat split. simpl. lia.
  - eexists [_]. repeat split. simpl. lia.
Qed.

Lemma activatedClient_requestHandler :
  _requestHandler (activatedClient unwrapFileUriPath runtime)
  = {| own :=
         <["textDocument/hover" :=
             fun protocolName payload s =>
               (s, Normal (getQuickInfoAny unwrapFileUriPath protocolName
                             payload))]> ∅;
       replaced := None |}.
Proof. reflexivity. Qed.

Lemma activatedClient_notificationHandler :
  _notificationHandler (activatedClient unwrapFileUriPath runtime)
  = {| own :=
         <["textDocument/didChange" :=
             protocolChangeFileAny unwrapFileUriPath]>
           (<["textDocument/didOpen" :=
                protocolOpenFileAny unwrapFileUriPath]> ∅);
       replaced := None |}.
Proof. reflexivity. Qed.

(** X4. On the client that [activate] sets up, a request never changes the
    state of the plugin, and ["textDocument/hover"] is the only request
    that is implemented: it is answered by [getQuickInfo], and under every
    other name that is not the name of a member of [Object.prototype], the
    names of completion, definition, references, formatting and signature
    help included, nothing is thrown and the promise is rejected for
    "Not implemented". *)
Theorem activated_requests fileName requestName payload s :
  (sendRequest (activatedClient unwrapFileUriPath runtime) fileName
     requestName payload s).1 = s
  /\ sendRequest (activatedClient unwrapFileUriPath runtime) fileName
       "textDocument/hover" payload s
     = (s, Normal (getQuickInfoAny unwrapFileUriPath "textDocument/hover"
                     payload))
  /\ (requestName <> "textDocument/hover" ->
      requestName ∉ objectPrototypeMembers ->
      sendRequest (activatedClient unwrapFileUriPath runtime) fileName
        requestName payload s
      = (s, Normal (Reject (ReasonText "Not implemented")))).
Proof.
  split; [| split].
  - unfold sendRequest, registryGet, RequestHandler.
    rewrite activatedClient_requestHandler; simpl.
    destruct (decide (requestName = "textDocument/hover")) as [-> | Hne].
    + by rewrite lookup_insert_eq.
    + rewrite lookup_insert_ne by done. rewrite lookup_empty.
      unfold inheritedRequestHandler. by case_decide.
  - rewrite (sendRequest_found _ _ _ _ _
               (fun protocolName payload s =>
                  (s, Normal (getQuickInfoAny unwrapFileUriPath protocolName
                                payload)))); [reflexivity |].
    apply registryGet_own.
    rewrite activatedClient_requestHandler; simpl. apply lookup_insert_eq.
  - intros Hne Hname. apply sendRequest_missing.
    rewrite registryGet_fresh.
    + by apply inheritedRequestHandler_none.
    + rewrite activatedClient_requestHandler; simpl.
      rewrite lookup_insert_ne by done. apply lookup_empty.
    + by rewrite activatedClient_requestHandler.
Qed.

(** X5. On the client that [activate] sets up, no notification, whatever
    its name and its arguments, changes the buffer mirror: a
    ["textDocument/didChange"] sends the new text to the host and leaves
    [lastBuffer] as it was.  A notification adds at most one call of the
    host to those made before, and removes none. *)
Theorem activated_notifications_keep_mirror fileName notificationName
    payload s :
  exists more,
    lastBuffer
      (sendNotification (activatedClient unwrapFileUriPath runtime) fileName
         notificationName payload s).1
    = lastBuffer s
    /\ effects
         (sendNotification (activatedClient unwrapFileUriPath runtime)
            fileName notificationName payload s).1
       = effects s ++ more
    /\ (List.length more <= 1)%nat.
Proof.
  assert (Hnone : exists more : list Effect,
             lastBuffer s = lastBuffer s
             /\ effects s = effects s ++ more
             /\ (List.length more <= 1)%nat).
  { exists []. rewrite app_nil_r. repeat split. simpl. lia. }
  unfold sendNotification, registryGet, NotificationHandler.
  rewrite activatedClient_notificationHandler; simpl.
  destruct (decide (notificationName = "textDocument/didChange"))
    as [-> | Hchange].
  - rewrite lookup_insert_eq. unfold protocolChangeFileAny.
    destruct (argumentsTextDocument payload) as [td |]; [| exact Hnone].
    destruct (argumentsContentChanges payload) as [cc |].
    + apply protocolChangeFile_state.
    + destruct (unwrapFileUriPath _); exact Hnone.
  - rewrite lookup_insert_ne by done.
    destruct (decide (notificationName = "textDocument/didOpen"))
      as [-> | Hopen].
    + rewrite lookup_insert_eq. unfold protocolOpenFileAny.
      destruct (argumentsTextDocument payload) as [td |]; [| exact Hnone].
      apply protocolOpenFile_state.
    + rewrite lookup_insert_ne by done. rewrite lookup_empty.
      unfold inheritedNotificationHandler. case_decide; exact Hnone.
Qed.

(** X6. [protocolChangeFile] looks at the first content change only.  If
    the path unwraps and the first change has no range, its text goes to
    [host.updateFile], directly and not through the throttled wrapper; if
    the first change has a range, nothing is sent, even when a change
    without range follows in the same notification. *)
Theorem protocolChangeFile_first_change message textDocument change rest
    filePath s :
  unwrapFileUriPath (types.uri textDocument) = Normal filePath ->
  protocolChangeFile unwrapFileUriPath message
    {| changed_textDocument := textDocument;
       contentChanges := change :: rest |} s
  = match types.change_range change with
    | None =>
        (emit (host_updateFile filePath (types.text change)) s, Normal tt)
    | Some _ => (s, Normal tt)
    end.
Proof. intros Hpath. unfold protocolChangeFile; simpl. by rewrite Hpath. Qed.

End ActivatedFacts.

(** X4 for a completion request. *)
Lemma activated_requests_witness :
  sendRequest (activatedClient exampleUnwrap exampleRuntime) "/a.ts"
    "textDocument/completion" OtherArguments initialState
  = (initialState, Normal (Reject (ReasonText "Not implemented"))).
Proof.
  apply (proj2 (proj2 (activated_requests exampleUnwrap exampleRuntime "/a.ts"
                         "textDocument/completion" OtherArguments
                         initialState)));
    [discriminate | not_member].
Defined.

(** X6 for a ranged change followed by a change of the whole document. *)
Lemma protocolChangeFile_first_change_witness :
  protocolChangeFile exampleUnwrap "textDocument/didChange"
    {| changed_textDocument := exampleDocument;
       contentChanges := [exampleRangedChange; exampleWholeChange] |}
    initialState
  = (initialState, Normal tt).
Proof.
  apply (protocolChangeFile_first_change exampleUnwrap
           "textDocument/didChange" exampleDocument exampleRangedChange
           [exampleWholeChange] "/a.ts" initialState).
  reflexivity.
Defined.

(** ** The buffer mirror over several events *)

Lemma JsArray_set_of_list (l : list string) (i : Z) (v : string) :
  0 <= i < Z.of_nat (List.length l) ->
  JsArray.set (JsArray.of_list l) i v
  = JsArray.of_list (<[Z.to_nat i := v]> l).
Proof.
  intros Hi. unfold JsArray.set, JsArray.of_list; simpl. f_equal.
  - apply map_eq. intros j.
    destruct (decide (i = j)) as [<- | Hne].
    + rewrite lookup_insert_eq. symmetry.
      apply lookup_map_seqZ_Some. split; [lia |].
      replace (Z.to_nat (i - 0)) with (Z.to_nat i) by lia.
      apply list_lookup_insert_eq. lia.
    + rewrite lookup_insert_ne by done.
      destruct (map_seqZ 0 l !! j) as [x |] eqn:Hx.
      * symmetry. apply lookup_map_seqZ_Some in Hx as [Hj Hx].
        apply lookup_map_seqZ_Some. split; [done |].
        rewrite list_lookup_insert_ne by lia. exact Hx.
      * symmetry. apply lookup_map_seqZ_None in Hx.
        apply lookup_map_seqZ_None. rewrite length_insert. exact Hx.
  - rewrite length_insert. case_decide; lia.
Qed.

Section MirrorRuns.

Variable EOL : string.

Lemma onBufferUpdate_lastBuffer args s :
  bufferFullPath (bu_eventContext args) <> "" ->
  lastBuffer (onBufferUpdate EOL args s) = JsArray.of_list (bufferLines args).
Proof.
  intros Hpath. unfold onBufferUpdate. case_decide; [done |]. reflexivity.
Qed.

(** X7. A full update with a path replaces the whole mirror, whatever it
    held: afterwards index i holds line i of the event for i within the
    lines of the event, and nothing at any other index, lines written by
    earlier incremental updates included; [length] is the number of lines
    of the event. *)
Theorem onBufferUpdate_replaces_mirror args s :
  bufferFullPath (bu_eventContext args) <> "" ->
  (forall i,
      JsArray.get (lastBuffer (onBufferUpdate EOL args s)) i
      = if decide (0 <= i) then bufferLines args !! Z.to_nat i else None)
  /\ JsArray.length (lastBuffer (onBufferUpdate EOL args s))
     = Z.of_nat (List.length (bufferLines args)).
Proof.
  intros Hpath. rewrite (onBufferUpdate_lastBuffer _ _ Hpath). split.
  - intros i. apply JsArray_get_of_list.
  - reflexivity.
Qed.

(** X8. A full update followed by an incremental update of a line that the
    full update delivered leaves the mirror that a full update with the
    edited lines leaves: the two update paths agree. *)
Theorem incremental_after_full_update args inc s :
  bufferFullPath (bu_eventContext args) <> "" ->
  bufferFullPath (ibu_eventContext inc) <> "" ->
  1 <= lineNumber inc <= Z.of_nat (List.length (bufferLines args)) ->
  lastBuffer (onBufferUpdateIncremental inc (onBufferUpdate EOL args s))
  = lastBuffer
      (onBufferUpdate EOL
         {| bu_eventContext := bu_eventContext args;
            bufferLines :=
              <[Z.to_nat (lineNumber inc - 1) := bufferLine inc]>
                (bufferLines args) |} s).
Proof.
  intros Hpath Hinc Hline.
  rewrite (onBufferUpdate_lastBuffer _ s) by exact Hpath.
  unfold onBufferUpdateIncremental. case_decide; [done |]. simpl.
  rewrite (onBufferUpdate_lastBuffer _ s Hpath).
  apply JsArray_set_of_list. lia.
Qed.

(** X9. A full update followed by an incremental update of a line past the
    end, with a line number of at most 2^32 - 1 (the last array index plus
    one): the array grows to the line number of the update, the new line
    is at its index, and the indices between the old end and the new line
    hold nothing. *)
Theorem incremental_past_the_end args inc s :
  bufferFullPath (bu_eventContext args) <> "" ->
  bufferFullPath (ibu_eventContext inc) <> "" ->
  Z.of_nat (List.length (bufferLines args)) < lineNumber inc ->
  lineNumber inc <= 4294967295 ->
  JsArray.length
    (lastBuffer (onBufferUpdateIncremental inc (onBufferUpdate EOL args s)))
  = lineNumber inc
  /\ JsArray.get
       (lastBuffer (onBufferUpdateIncremental inc (onBufferUpdate EOL args s)))
       (lineNumber inc - 1)
     = Some (bufferLine inc)
  /\ forall i,
      Z.of_nat (List.length (bufferLines args)) <= i < lineNumber inc - 1 ->
      JsArray.get
        (lastBuffer
           (onBufferUpdateIncremental inc (onBufferUpdate EOL args s))) i
      = None.
Proof.
  intros Hpath Hinc Hline Hindex.
  unfold onBufferUpdateIncremental. case_decide; [done |]. simpl.
  rewrite (onBufferUpdate_lastBuffer _ s Hpath). split; [| split].
  - unfold JsArray.set, JsArray.of_list; simpl. case_decide; lia.
  - apply JsArray_get_set_eq.
  - intros i Hi. rewrite JsArray_get_set_ne by lia.
    rewrite JsArray_get_of_list. case_decide; [| done].
    apply lookup_ge_None. lia.
Qed.

Lemma withinLength_of_list l : withinLength (JsArray.of_list l).
Proof.
  intros i Hi [x Hx]. rewrite JsArray_get_of_list in Hx.
  case_decide; [| done]. apply lookup_lt_Some in Hx.
  unfold JsArray.of_list; simpl. lia.
Qed.

Lemma withinLength_set a i v :
  withinLength a -> withinLength (JsArray.set a i v).
Proof.
  intros Ha j Hj [x Hx].
  destruct (decide (i = j)) as [<- | Hne].
  - unfold JsArray.set; simpl. case_decide; lia.
  - rewrite JsArray_get_set_ne in Hx by done.
    specialize (Ha j Hj (ex_intro _ x Hx)).
    unfold JsArray.set; simpl. case_decide; lia.
Qed.

(** X10. The mirror is always a proper array: no array index (0 to
    2^32 - 2) at or past [length] holds a line.  This holds at activation
    and both update handlers keep it, for every event, with or without
    path, with any line number.  An incremental update whose line number
    minus 1 is no array index (line 0 and below, line 2^32 and above)
    leaves [length] as it was, and the line is still stored and read back
    under that number. *)
Theorem mirror_withinLength args inc s :
  withinLength (lastBuffer initialState)
  /\ (withinLength (lastBuffer s) ->
      withinLength (lastBuffer (onBufferUpdate EOL args s))
      /\ withinLength (lastBuffer (onBufferUpdateIncremental inc s)))
  /\ (bufferFullPath (ibu_eventContext inc) <> "" ->
      ~ 0 <= lineNumber inc - 1 < 4294967295 ->
      JsArray.length (lastBuffer (onBufferUpdateIncremental inc s))
      = JsArray.length (lastBuffer s)
      /\ JsArray.get (lastBuffer (onBufferUpdateIncremental inc s))
           (lineNumber inc - 1)
         = Some (bufferLine inc)).
Proof.
  split; [| split; [intros Hs; split |]].
  - intros i Hi [x Hx]. unfold initialState, JsArray.get in Hx; simpl in Hx.
    by rewrite lookup_empty in Hx.
  - unfold onBufferUpdate. case_decide; [exact Hs |].
    apply withinLength_of_list.
  - unfold onBufferUpdateIncremental. case_decide; [exact Hs |].
    by apply withinLength_set.
  - intros Hpath Hfar. unfold onBufferUpdateIncremental.
    case_decide; [done |]. simpl. split.
    + unfold JsArray.set; simpl. by case_decide.
    + apply JsArray_get_set_eq.
Qed.

Lemma runBufferUpdates_snoc events args s :
  runBufferUpdates EOL (events ++ [args]) s
  = onBufferUpdate EOL args (runBufferUpdates EOL events s).
Proof. unfold runBufferUpdates. by rewrite fold_left_app. Qed.

Lemma countOpen_app (l1 l2 : list Effect) :
  List.length (List.filter isOpenFile (l1 ++ l2))
  = (List.length (List.filter isOpenFile l1)
     + List.length (List.filter isOpenFile l2))%nat.
Proof. by rewrite List.filter_app, length_app. Qed.

(** X11. Over any run of full updates, [host.openFile] is called once for
    every event that has a path, repeated paths included: the number of
    open calls grows by the number of such events.  Events without path
    open nothing. *)
Theorem runBufferUpdates_open_calls events s :
  List.length
    (List.filter isOpenFile (effects (runBufferUpdates EOL events s)))
  = (List.length (List.filter isOpenFile (effects s))
     + List.length (List.filter hasPath events))%nat.
Proof.
  induction events as [| args events IH] using rev_ind.
  - simpl. lia.
  - rewrite runBufferUpdates_snoc, List.filter_app, length_app.
    unfold hasPath at 2. simpl List.filter.
    destruct (String.eqb_spec (bufferFullPath (bu_eventContext args)) "")
      as [Hempty | Hpath]; simpl.
    + unfold onBufferUpdate. case_decide; [| done]. rewrite IH. lia.
    + rewrite (onBufferUpdate_effects _ _ _ Hpath), countOpen_app, IH.
      simpl. lia.
Qed.

End MirrorRuns.

(** X7 on three lines. *)
Lemma onBufferUpdate_replaces_mirror_witness :
  JsArray.get (lastBuffer (onBufferUpdate "" exampleLongUpdate exampleState)) 1
  = Some "let b"
  /\ JsArray.length (lastBuffer (onBufferUpdate "" exampleLongUpdate
                                   exampleState))
     = 3.
Proof.
  destruct (onBufferUpdate_replaces_mirror "" exampleLongUpdate exampleState
              ltac:(discriminate)) as [Hget Hlength].
  split; [exact (Hget 1) | exact Hlength].
Defined.

(** X8 on the second of three lines. *)
Lemma incremental_after_full_update_witness :
  lastBuffer (onBufferUpdateIncremental exampleSecondLine
                (onBufferUpdate "" exampleLongUpdate initialState))
  = JsArray.of_list ["let a"; "let bb"; "let c"].
Proof.
  exact (incremental_after_full_update "" exampleLongUpdate exampleSecondLine
           initialState ltac:(discriminate) ltac:(discriminate)
           ltac:(simpl; lia)).
Defined.

(** X9 on line 6 after three lines. *)
Lemma incremental_past_the_end_witness :
  JsArray.length
    (lastBuffer (onBufferUpdateIncremental exampleSixthLine
                   (onBufferUpdate "" exampleLongUpdate initialState)))
  = 6.
Proof.
  exact (proj1 (incremental_past_the_end "" exampleLongUpdate
                  exampleSixthLine initialState ltac:(discriminate)
                  ltac:(discriminate) ltac:(simpl; lia) ltac:(simpl; lia))).
Defined.

(** X10 from the initial state, for line 6 and for line 2^32. *)
Lemma mirror_withinLength_witness :
  withinLength
    (lastBuffer (onBufferUpdateIncremental exampleSixthLine initialState))
  /\ JsArray.length
       (lastBuffer (onBufferUpdateIncremental exampleFarLine initialState))
     = 0
  /\ JsArray.get
       (lastBuffer (onBufferUpdateIncremental exampleFarLine initialState))
       4294967295
     = Some "far away".
Proof.
  split.
  - destruct (mirror_withinLength "" exampleLongUpdate exampleSixthLine
                initialState) as (Hinit & Hkeep & _).
    exact (proj2 (Hkeep Hinit)).
  - exact (proj2 (proj2 (mirror_withinLength "" exampleLongUpdate
                           exampleFarLine initialState))
             ltac:(discriminate) ltac:(simpl; lia)).
Defined.

(** ** The translators *)

Lemma lookup_map {A B : Type} (f : A -> B) (l : list A) (i : nat) :
  map f l !! i = f <$> l !! i.
Proof.
  revert i. induction l as [| x l IH]; intros [| i]; simpl; done.
Qed.

(** X12. [getDefinition] asks the host for the type definition at the
    position of the query, unshifted.  If the host finds several, the first
    one is the result and the others are dropped; if it finds none, the
    promise is rejected with a [TypeError]; if the host fails, the promise
    is rejected for the reason of the host. *)
Theorem getDefinition_first_or_rejected (host : QueryOracle)
    (textDocumentPosition : EventContext) :
  queryOf (getDefinition textDocumentPosition)
  = Some (Asked (GetTypeDefinition (bufferFullPath textDocumentPosition)
                   (line textDocumentPosition)
                   (column textDocumentPosition)))
  /\ outcome host (getDefinition textDocumentPosition)
     = match host _ (GetTypeDefinition (bufferFullPath textDocumentPosition)
                       (line textDocumentPosition)
                       (column textDocumentPosition)) with
       | Rejected r => Rejected r
       | Fulfilled [] => Rejected (ReasonError TypeError)
       | Fulfilled (first :: _) =>
           Fulfilled
             {| def_filePath := responses.span_file first;
                def_line := protocol.line (responses.span_start first);
                def_column := protocol.offset (responses.span_start first) |}
       end.
Proof.
  split; [reflexivity |]. unfold outcome, getDefinition.
  destruct (host _ _) as [[| first rest] | r]; reflexivity.
Qed.

(** X13. [findAllReferences] hands over the references of the host one
    for one and in order, with the line and the offset of the host as line
    and column, unshifted, and the symbol name as token name; a failure of
    the host rejects the promise. *)
Theorem findAllReferences_items (host : QueryOracle)
    (textDocumentPosition : EventContext) :
  outcome host (findAllReferences textDocumentPosition)
  = match host _ (FindAllReferences (bufferFullPath textDocumentPosition)
                    (line textDocumentPosition)
                    (column textDocumentPosition)) with
    | Rejected r => Rejected r
    | Fulfilled val =>
        Fulfilled {| tokenName := responses.symbolName val;
                     ref_items := map mapResponseToItem (responses.refs val) |}
    end
  /\ forall val,
      Forall2
        (fun referenceItem item =>
           fullPath item = responses.ref_file referenceItem
           /\ ref_line item
              = protocol.line (responses.ref_start referenceItem)
           /\ ref_column item
              = protocol.offset (responses.ref_start referenceItem)
           /\ ref_lineText item = responses.lineText referenceItem)
        (responses.refs val)
        (map mapResponseToItem (responses.refs val)).
Proof.
  split.
  - unfold outcome, findAllReferences. by destruct (host _ _).
  - intros val. induction (responses.refs val) as [| r rs IH]; simpl.
    + constructor.
    + constructor; [repeat split | exact IH].
Qed.

(** X14. [getFormattingEdits] asks the host to format from line 1, offset 1
    to the line [lastBuffer.length], offset 0: right after a full update
    with a path, that end line is the number of lines of the update.  The
    edits of the host come back one for one and in order, with the file
    path and the version of the query. *)
Theorem getFormattingEdits_range (EOL : string) (host : QueryOracle)
    (args : BufferUpdateContext) (s : PluginState)
    (position : VersionedContext) :
  bufferFullPath (bu_eventContext args) <> "" ->
  queryOf (getFormattingEdits s position)
  = Some (Asked (GetFormattingEdits (bufferFullPath (vc_context position))
                   1 1 (JsArray.length (lastBuffer s)) 0))
  /\ queryOf (getFormattingEdits (onBufferUpdate EOL args s) position)
     = Some (Asked (GetFormattingEdits (bufferFullPath (vc_context position))
                      1 1 (Z.of_nat (List.length (bufferLines args))) 0))
  /\ forall val,
      host _ (GetFormattingEdits (bufferFullPath (vc_context position))
                1 1 (JsArray.length (lastBuffer s)) 0) = Fulfilled val ->
      exists result,
        outcome host (getFormattingEdits s position) = Fulfilled result
        /\ fr_filePath result = bufferFullPath (vc_context position)
        /\ fr_version result = version position
        /\ edits result = map toFormattingEdit val
        /\ List.length (edits result) = List.length val.
Proof.
  intros Hpath. split; [reflexivity | split].
  - unfold getFormattingEdits, queryOf.
    by rewrite (onBufferUpdate_lastBuffer EOL args s Hpath).
  - intros val Hval. eexists. unfold outcome, getFormattingEdits.
    rewrite Hval. split; [reflexivity |]. simpl.
    repeat split. apply length_map.
Qed.

(** X14 after a full update of three lines. *)
Lemma getFormattingEdits_range_witness :
  queryOf (getFormattingEdits (onBufferUpdate "" exampleLongUpdate initialState)
             exampleVersioned)
  = Some (Asked (GetFormattingEdits "/q.ts" 1 1 3 0)).
Proof.
  exact (proj1 (proj2 (getFormattingEdits_range "" exampleQueryHost
                         exampleLongUpdate initialState exampleVersioned
                         ltac:(discriminate)))).
Defined.

(** X15. [getCompletionDetails] without position, or for a buffer without
    path, resolves to [null] and asks nothing of the host.  Otherwise it
    asks for the details of the label of the item, alone, at the position
    of the query; no details give [null]; else the first entry gives the
    result, whose documentation is the text of the first part of the
    documentation of the entry, or [null] when the entry has no
    documentation or an empty one. *)
Theorem getCompletionDetails_cases (host : QueryOracle)
    (textDocumentPosition : EventContext) (completionItem : CompletionItem) :
  getCompletionDetails None completionItem = Resolved None
  /\ (bufferFullPath textDocumentPosition = "" ->
      getCompletionDetails (Some textDocumentPosition) completionItem
      = Resolved None)
  /\ (bufferFullPath textDocumentPosition <> "" ->
      queryOf (getCompletionDetails (Some textDocumentPosition) completionItem)
      = Some (Asked (GetCompletionDetails
                       (bufferFullPath textDocumentPosition)
                       (line textDocumentPosition)
                       (column textDocumentPosition)
                       [label completionItem]))
      /\ outcome host
           (getCompletionDetails (Some textDocumentPosition) completionItem)
         = match host _ (GetCompletionDetails
                           (bufferFullPath textDocumentPosition)
                           (line textDocumentPosition)
                           (column textDocumentPosition)
                           [label completionItem]) with
           | Rejected r => Rejected r
           | Fulfilled [] => Fulfilled None
           | Fulfilled (entry :: _) =>
               Fulfilled (Some
                 {| cd_kind :=
                      convertTypeScriptKindToCompletionItemKind
                        (responses.entry_kind entry);
                    cd_label := responses.entry_name entry;
                    cd_documentation :=
                      IDisplayPart.text
                        <$> (responses.entry_documentation entry
                               ≫= fun parts => parts !! 0%nat);
                    detail :=
                      convertToDisplayString
                        (responses.displayParts entry) |})
           end).
Proof.
  split; [reflexivity | split].
  - intros Hpath. unfold getCompletionDetails. by case_decide.
  - intros Hpath. unfold getCompletionDetails. case_decide; [done |].
    split; [reflexivity |]. unfold outcome.
    destruct (host _ _) as [[| entry rest] | r]; try reflexivity.
    simpl. do 3 f_equal.
    destruct (responses.entry_documentation entry) as [[| dp parts] |];
      reflexivity.
Qed.

(** X15 for a buffer without path and for a host that has no details. *)
Lemma getCompletionDetails_cases_witness :
  getCompletionDetails (Some exampleNoPathQuery) exampleItem = Resolved None
  /\ outcome exampleQueryHost
       (getCompletionDetails (Some exampleQuery) exampleItem)
     = Fulfilled None.
Proof.
  split.
  - apply (proj1 (proj2 (getCompletionDetails_cases exampleQueryHost
                           exampleNoPathQuery exampleItem))).
    reflexivity.
  - apply (proj2 (proj2 (proj2 (getCompletionDetails_cases exampleQueryHost
                                  exampleQuery exampleItem))
                    ltac:(discriminate))).
Defined.

(** ** Display strings and signature help *)

Lemma fold_display_from (parts : list IDisplayPart.t) (ret : string) :
  fold_left (fun ret dp => ret +:+ IDisplayPart.text dp) parts ret
  = ret +:+ fold_left (fun ret dp => ret +:+ IDisplayPart.text dp) parts "".
Proof.
  revert ret. induction parts as [| dp parts IH]; intros ret; simpl.
  - by rewrite string_app_empty_r.
  - rewrite IH, (IH ("" +:+ IDisplayPart.text dp)).
    by rewrite string_app_nil, string_app_assoc.
Qed.

(** X16. [convertToDisplayString] joins the texts of the parts, in order
    and with nothing between them: the string of two lists put end to end
    is the string of the first followed by the string of the second, parts
    that have the same texts give the same string whatever their kinds, and
    a missing list gives the empty string, like an empty list. *)
Theorem convertToDisplayString_joins (parts1 parts2 : list IDisplayPart.t) :
  convertToDisplayString (Some (parts1 ++ parts2))
  = convertToDisplayString (Some parts1)
    +:+ convertToDisplayString (Some parts2)
  /\ convertToDisplayString (Some parts1)
     = String.concat "" (map IDisplayPart.text parts1)
  /\ convertToDisplayString None = convertToDisplayString (Some []).
Proof.
  split; [| split; [| reflexivity]].
  - unfold convertToDisplayString. rewrite fold_left_app.
    by rewrite fold_display_from.
  - unfold convertToDisplayString.
    induction parts1 as [| dp parts IH]; [reflexivity |].
    simpl fold_left. rewrite fold_display_from, string_app_nil, IH.
    simpl. destruct (map IDisplayPart.text parts) as [| t ts] eqn:Hts.
    + simpl. by rewrite string_app_empty_r.
    + reflexivity.
Qed.

(** X17. [getSignatureHelp] hands over the signatures of the host one for
    one and in order, each with as many parameters as the host gave and
    with its variadic flag; the three indices of the answer are passed
    through.  An answer without [items] gives an empty list of signatures,
    not an error. *)
Theorem getSignatureHelp_items (host : QueryOracle)
    (textDocumentPosition : EventContext) :
  outcome host (getSignatureHelp textDocumentPosition)
  = match host _ (GetSignatureHelp (bufferFullPath textDocumentPosition)
                    (line textDocumentPosition)
                    (column textDocumentPosition)) with
    | Rejected r => Rejected r
    | Fulfilled result =>
        Fulfilled
          {| sig_items :=
               map toSignatureItem (default [] (responses.items result));
             sig_selectedItemIndex := responses.selectedItemIndex result;
             sig_argumentCount := responses.argumentCount result;
             sig_argumentIndex := responses.argumentIndex result |}
    end
  /\ (forall items,
      Forall2
        (fun item signature =>
           variableArguments signature = responses.isVariadic item
           /\ List.length (sig_parameters signature)
              = List.length (responses.parameters item))
        items (map toSignatureItem items))
  /\ map toSignatureItem (default [] None) = [].
Proof.
  split; [| split; [| reflexivity]].
  - unfold outcome, getSignatureHelp. by destruct (host _ _).
  - intros items. induction items as [| item items IH]; simpl.
    + constructor.
    + constructor; [| exact IH]. split; [reflexivity |].
      unfold toSignatureItem; simpl. apply length_map.
Qed.

(** ** Highlights *)

Lemma length_entriesOf text kind spans :
  List.length (entriesOf text kind spans) = List.length spans.
Proof. apply length_map. Qed.

Lemma length_preorder (t : NavigationTree) :
  List.length (preorder t) = spanCount t.
Proof.
  induction t as [text kind spans | text kind spans childItems IH]
    using NavigationTree_forest_ind.
  - simpl. rewrite length_app, length_entriesOf. reflexivity.
  - simpl. rewrite length_app, length_entriesOf. f_equal.
    induction IH as [| c childItems Hc _ IHcs]; [reflexivity |].
    simpl. by rewrite length_app, Hc, IHcs.
Qed.



(** X18. For a forest of the declared type, the flattening adds exactly as
    many highlights as the nodes of the forest have spans, whatever the
    kinds and the texts of the nodes: a kind without highlight group still
    gives its entries, and a node without span gives none. *)
Theorem getHighlightsFromNavTree_count
    (navTree : list NavigationTree) (highlights : list Highlight) :
  List.length
    (getHighlightsFromNavTree (Some (map toValue navTree)) highlights).1
  = (List.length highlights + list_sum (map spanCount navTree))%nat.
Proof.
  unfold getHighlightsFromNavTree.
  rewrite (forEachItem_preorder navTree)
    by (apply Forall_forall; intros t _; apply visitItem_preorder).
  simpl. rewrite length_app. f_equal.
  induction navTree as [| t navTree IH]; [reflexivity |].
  simpl. by rewrite length_app, length_preorder, IH.
Qed.

Lemma forEachItem_app (l1 l2 : list NavigationTreeValue) highlights :
  forEachItem (l1 ++ l2) highlights
  = match forEachItem l1 highlights with
    | (highlights', Normal _) => forEachItem l2 highlights'
    | failed => failed
    end.
Proof.
  revert highlights. induction l1 as [| c l1 IH]; intros highlights.
  - reflexivity.
  - simpl. destruct (visitItem c highlights) as [highlights' [[] | e]].
    + apply IH.
    + reflexivity.
Qed.

(** X19. Flattening two forests put end to end is flattening the first and
    then, if that completed, the second into the same accumulator; if the
    first throws, the second is not visited and the accumulator stays as
    the first left it. *)
Theorem getHighlightsFromNavTree_app
    (navTree1 navTree2 : list NavigationTreeValue)
    (highlights : list Highlight) :
  getHighlightsFromNavTree (Some (navTree1 ++ navTree2)) highlights
  = match getHighlightsFromNavTree (Some navTree1) highlights with
    | (highlights', Normal _) =>
        getHighlightsFromNavTree (Some navTree2) highlights'
    | failed => failed
    end.
Proof. apply forEachItem_app. Qed.

(** X20. On [buffer-enter] the plugin opens the file, with no test of the
    path, and asks for its navigation tree.  Of the answer only the
    children of the root are flattened: the root itself gives no highlight,
    whatever its kind and its spans, and need not have spans.  The
    highlights go to [Oni.setHighlights] under the scope "typescript"; when
    a node below the root lacks its spans, the promise is rejected with a
    [TypeError] and [setHighlights] is not called.  [buffer-saved] asks the
    host for the errors of the project and then publishes the highlights in
    the same way. *)
Theorem onBufferEnter_highlights (host : QueryOracle) (args : EventContext)
    (s : PluginState) (text kind : string)
    (spans : option (list protocol.TextSpan))
    (childItems : list NavigationTree)
    (broken : list NavigationTreeValue) :
  effects (onBufferEnter args s).1
  = effects s ++ [host_openFile (bufferFullPath args)]
  /\ queryOf (onBufferEnter args s).2
     = Some (Asked (GetNavigationTree (bufferFullPath args)))
  /\ (host _ (GetNavigationTree (bufferFullPath args))
      = Fulfilled (NavValue text kind spans (Some (map toValue childItems))) ->
      outcome host (onBufferEnter args s).2
      = Fulfilled (SetHighlights (bufferFullPath args) "typescript"
                     (List.flat_map preorder childItems)))
  /\ (host _ (GetNavigationTree (bufferFullPath args))
      = Fulfilled (NavValue text kind spans None) ->
      outcome host (onBufferEnter args s).2
      = Fulfilled (SetHighlights (bufferFullPath args) "typescript" []))
  /\ (host _ (GetNavigationTree (bufferFullPath args))
      = Fulfilled (NavValue text kind spans (Some broken)) ->
      forallb allSpansPresent broken = false ->
      outcome host (onBufferEnter args s).2
      = Rejected (ReasonError TypeError))
  /\ onBufferSaved args
     = (host_getErrorsAcrossProject (bufferFullPath args),
        (onBufferEnter args s).2).
Proof.
  split; [reflexivity | split; [reflexivity | split; [| split; [| split]]]];
    [| | | reflexivity].
  - intros Hhost. unfold outcome, onBufferEnter; simpl. rewrite Hhost.
    unfold publishHighlights, getHighlightsFromNavTree.
    rewrite (forEachItem_preorder childItems)
      by (apply Forall_forall; intros t _; apply visitItem_preorder).
    reflexivity.
  - intros Hhost. unfold outcome, onBufferEnter; simpl. by rewrite Hhost.
  - intros Hhost Hbroken. unfold outcome, onBufferEnter; simpl.
    rewrite Hhost. unfold publishHighlights.
    destruct (forEachItem_outcome broken []) as [pushed Hrun].
    unfold getHighlightsFromNavTree. rewrite Hrun, Hbroken. reflexivity.
Qed.

(** X20 when the host answers [exampleTree]: the class at the root gives no
    highlight, its method gives one. *)
Lemma onBufferEnter_highlights_witness :
  outcome exampleQueryHost (onBufferEnter exampleEnter initialState).2
  = Fulfilled (SetHighlights "/q.ts" "typescript"
                 [ {| highlightKind := Mapped SymbolKind.Function_;
                      token := "bar" |} ]).
Proof.
  apply (proj1 (proj2 (proj2 (onBufferEnter_highlights exampleQueryHost
                                exampleEnter initialState "Foo" "class"
                                (Some [exampleSpan])
                                [NavTree "bar" "method" [exampleSpan] None]
                                [])))).
  reflexivity.
Defined.

(** ** Completions *)

Lemma scanPrefix_identifier (currentLine : option string) (n : nat)
    (acc currentPrefix : string) (basePos : Z) :
  allIdentifier acc = true ->
  scanPrefix currentLine n acc = Normal (currentPrefix, basePos) ->
  allIdentifier currentPrefix = true.
Proof.
  revert acc. induction n as [| n IH]; intros acc Hacc; simpl.
  - by intros [= <- _].
  - destruct currentLine as [l |]; [| discriminate].
    destruct (String.get n l) as [c |]; [| discriminate].
    destruct (isIdentifierCharacter c) eqn:Hc.
    + apply IH. simpl. by rewrite Hc, Hacc.
    + by intros [= <- _].
Qed.

Lemma getCompletions_shape (s : PluginState) (q : EventContext) p :
  getCompletions s q = Normal p ->
  (exists currentBase,
      allIdentifier (default "" currentBase) = true
      /\ p = Resolve {| base := currentBase; completions := [] |})
  \/ exists currentPrefix,
      allIdentifier currentPrefix = true
      /\ p = Await (GetCompletions (bufferFullPath q) (line q) (column q)
                      currentPrefix)
               (fun val =>
                  Resolve
                    {| base := Some currentPrefix;
                       completions :=
                         map toCompletionItem
                           (List.filter
                              (fun v => keepEntry currentPrefix v) val) |}).
Proof.
  unfold getCompletions. case_decide.
  - intros [= <-]. left. by exists None.
  - destruct (scanPrefix _ _ _) as [[currentPrefix basePos] | e] eqn:Hscan;
      [| discriminate].
    apply scanPrefix_identifier in Hscan; [| reflexivity].
    destruct (String.length currentPrefix =? 0)%nat.
    + destruct (charAt _ _) as [c | e]; [| discriminate].
      case_decide.
      * intros [= <-]. right. by exists currentPrefix.
      * intros [= <-]. left. by exists (Some currentPrefix).
    + intros [= <-]. right. by exists currentPrefix.
Qed.

(** X21. Whatever the mirror, the query and the answer of the host: when
    [getCompletions] returns a promise and the promise is fulfilled, the
    label of every completion of the result is the name of an entry of the
    host and starts with the [base] of the result, and that [base] is made
    of identifier characters only (letters and underscore). *)
Theorem getCompletions_labels_start_with_base (s : PluginState)
    (q : EventContext) (host : HostOracle) p r :
  getCompletions s q = Normal p ->
  settle host p = Fulfilled r ->
  Forall (fun item =>
            String.prefix (default "" (base r)) (label item) = true)
         (completions r)
  /\ allIdentifier (default "" (base r)) = true
  /\ forall val,
      host _ (GetCompletions (bufferFullPath q) (line q) (column q)
                (default "" (base r))) = Fulfilled val ->
      Forall (fun item => In (label item) (map protocol.name val))
             (completions r).
Proof.
  intros Hp Hr.
  destruct (getCompletions_shape _ _ _ Hp)
    as [(currentBase & Hident & Hshape) | (currentPrefix & Hident & Hshape)];
    subst p.
  - simpl in Hr. injection Hr as <-. simpl.
    split; [constructor | split; [exact Hident |]].
    intros val _. constructor.
  - simpl in Hr.
    destruct (host _ _) as [val | r'] eqn:Hhost; [| discriminate].
    simpl in Hr. injection Hr as <-. simpl. repeat split.
    + apply Forall_forall. intros item Hitem.
      apply list_elem_of_In, in_map_iff in Hitem as (v & <- & Hv).
      apply List.filter_In in Hv as [_ Hkeep].
      by rewrite keepEntry_prefix in Hkeep.
    + exact Hident.
    + intros val' Hval'. rewrite Hhost in Hval'. injection Hval' as <-.
      apply Forall_forall. intros item Hitem.
      apply list_elem_of_In, in_map_iff in Hitem as (v & <- & Hv).
      apply List.filter_In in Hv as [Hv _].
      apply in_map_iff. by exists v.
Qed.

(** X22. [getCompletions] sends at most one request to the host, and the
    request carries the path, the line and the column of the query as they
    came: no coordinate is shifted on this path, unlike on the hover
    path. *)
Theorem getCompletions_one_request (s : PluginState) (q : EventContext)
    (host : HostOracle) p :
  getCompletions s q = Normal p ->
  requestsOf host p = []
  \/ exists currentPrefix,
      requestsOf host p
      = [Sent (GetCompletions (bufferFullPath q) (line q) (column q)
                 currentPrefix)].
Proof.
  intros Hp.
  destruct (getCompletions_shape _ _ _ Hp)
    as [(currentBase & _ & Hshape) | (currentPrefix & _ & Hshape)]; subst p.
  - by left.
  - right. exists currentPrefix. simpl. by destruct (host _ _).
Qed.

(** X21 on the line "foo.ba" with a host that knows bar, foo and baz. *)
Lemma getCompletions_labels_start_with_base_witness :
  Forall (fun item =>
            String.prefix (default "" (base exampleCompletionResult))
              (label item) = true)
         (completions exampleCompletionResult).
Proof.
  refine (proj1 (getCompletions_labels_start_with_base exampleState
                   exampleQuery exampleHost _ exampleCompletionResult
                   _ _)).
  - vm_compute. reflexivity.
  - vm_compute. reflexivity.
Defined.

(** X22 on the same query. *)
Lemma getCompletions_one_request_witness :
  exists p,
    getCompletions exampleState exampleQuery = Normal p
    /\ (requestsOf exampleHost p = []
        \/ exists currentPrefix,
            requestsOf exampleHost p
            = [Sent (GetCompletions "/q.ts" 1 7 currentPrefix)]).
Proof.
  eexists. split.
  - vm_compute. reflexivity.
  - refine (getCompletions_one_request exampleState exampleQuery exampleHost
              _ _).
    vm_compute. reflexivity.
Defined.

Lemma scanPrefix_before_cursor (before rest : string) (n : nat)
    (acc : string) :
  (n <= String.length before)%nat ->
  scanPrefix (Some (before +:+ rest)) n acc = scanPrefix (Some before) n acc.
Proof.
  revert acc. induction n as [| n IH]; intros acc Hn; simpl; [reflexivity |].
  rewrite string_get_app_l by lia.
  destruct (String.get n before) as [c |]; [| reflexivity].
  destruct (isIdentifierCharacter c); [| reflexivity].
  apply IH. lia.
Qed.

Lemma charAt_before_cursor (before rest : string) (i : Z) :
  i < Z.of_nat (String.length before) ->
  charAt (Some (before +:+ rest)) i = charAt (Some before) i.
Proof.
  intros Hi. unfold charAt. case_decide; [| reflexivity].
  by rewrite string_get_app_l by lia.
Qed.

(** X23. [getCompletions] reads the line of the query up to the cursor and
    nothing else of the mirror: two mirrors whose lines at the index of the
    query start with the same [column - 1] characters give the same result,
    the same request to the host included, whatever follows the cursor and
    whatever the other lines are. *)
Theorem getCompletions_reads_up_to_cursor (s1 s2 : PluginState)
    (q : EventContext) (before rest1 rest2 : string) :
  JsArray.get (lastBuffer s1) (line q - 1) = Some (before +:+ rest1) ->
  JsArray.get (lastBuffer s2) (line q - 1) = Some (before +:+ rest2) ->
  Z.of_nat (String.length before) = column q - 1 ->
  getCompletions s1 q = getCompletions s2 q.
Proof.
  intros H1 H2 Hlen. unfold getCompletions. case_decide; [reflexivity |].
  rewrite H1, H2.
  rewrite !scanPrefix_before_cursor by lia.
  destruct (scanPrefix_total before (Z.to_nat (column q - 2 + 1)) "")
    as (currentPrefix & basePos & -> & Hbase); [lia |].
  destruct (String.length currentPrefix =? 0)%nat; [| reflexivity].
  by rewrite !charAt_before_cursor by lia.
Qed.

(** X23 on "foo.ba" and "foo.bar(1)", cursor at column 7. *)
Lemma getCompletions_reads_up_to_cursor_witness :
  getCompletions exampleState exampleQuery
  = getCompletions exampleLongerState exampleQuery.
Proof.
  apply (getCompletions_reads_up_to_cursor exampleState exampleLongerState
           exampleQuery "foo.ba" "" "r(1)").
  - vm_compute. reflexivity.
  - vm_compute. reflexivity.
  - reflexivity.
Defined.

(** ** Hover failures *)

(** X24. [getQuickInfo] never throws: when the URI of the document cannot
    be unwrapped, the promise is rejected with the error of the unwrapping
    and the host is not asked; when the host fails the request, the promise
    is rejected for the reason of the host. *)
Theorem getQuickInfo_failures
    (unwrapFileUriPath : string -> Completion string)
    (protocolName : string) (payload : HoverPayload) (host : HostOracle) :
  (forall e,
      unwrapFileUriPath (types.uri (textDocument payload)) = Throw e ->
      getQuickInfo unwrapFileUriPath protocolName payload
      = Reject (ReasonError e)
      /\ requestsOf host (getQuickInfo unwrapFileUriPath protocolName payload)
         = [])
  /\ (forall filePath r,
      unwrapFileUriPath (types.uri (textDocument payload)) = Normal filePath ->
      host _ (GetQuickInfo filePath (types.line (position payload) + 1)
                (types.character (position payload) + 1)) = Rejected r ->
      settle host (getQuickInfo unwrapFileUriPath protocolName payload)
      = Rejected r)
  /\ forall (World : Type) (w : World),
      exists p,
        getQuickInfoHandler unwrapFileUriPath protocolName payload w
        = (w, Normal p).
Proof.
  split; [| split].
  - intros e He. unfold getQuickInfo. by rewrite He.
  - intros filePath r Hpath Hhost.
    rewrite (getQuickInfo_request _ _ _ _ Hpath). simpl. by rewrite Hhost.
  - intros World w. by eexists.
Qed.

(** X24 for a URI that ends with a lone percent sign. *)
Lemma getQuickInfo_failures_witness :
  getQuickInfo exampleStrictUnwrap "textDocument/hover" exampleBadHover
  = Reject (ReasonError URIError).
Proof.
  apply (proj1 (getQuickInfo_failures exampleStrictUnwrap "textDocument/hover"
                  exampleBadHover exampleHost)
           URIError).
  reflexivity.
Defined.

(** ** File URIs *)

Lemma index_none_cons (sep : string) (c : ascii) (s : string) :
  String.index 0 sep (String c s) = None ->
  String.prefix sep (String c s) = false /\ String.index 0 sep s = None.
Proof.
  simpl. destruct sep as [| a sep]; [discriminate |].
  destruct (ascii_dec a c) as [-> | Hne].
  - destruct (String.prefix sep s); [discriminate |].
    destruct (String.index 0 (String c sep) s); [discriminate | done].
  - destruct (String.index 0 (String a sep) s); [discriminate | done].
Qed.

Lemma splitFrom_no_match (sep cur s : string) :
  String.index 0 sep s = None -> splitFrom sep 0 cur s = [cur +:+ s].
Proof.
  revert cur. induction s as [| c s IH]; intros cur Hnone.
  - simpl. by rewrite string_app_empty_r.
  - apply index_none_cons in Hnone as [Hprefix Hrest].
    cbn [splitFrom]. rewrite Hprefix, (IH _ Hrest).
    by rewrite string_app_assoc.
Qed.

Lemma splitFrom_skip (sep passed cur rest : string) :
  splitFrom sep (String.length passed) cur (passed +:+ rest)
  = splitFrom sep 0 cur rest.
Proof.
  induction passed as [| c passed IH]; [reflexivity |].
  rewrite string_app_cons. simpl. exact IH.
Qed.

Lemma string_prefix_app (p rest : string) :
  String.prefix p (p +:+ rest) = true.
Proof.
  induction p as [| a p IH]; [by destruct rest |].
  rewrite string_app_cons. simpl.
  destruct (ascii_dec a a); [exact IH | done].
Qed.

Lemma split_at_start (c : ascii) (sep rest : string) :
  String.index 0 (String c sep) rest = None ->
  split (String c sep) (String c sep +:+ rest) = [""; rest].
Proof.
  intros Hnone.
  assert (Hprefix :
    String.prefix (String c sep) (String c (sep +:+ rest)) = true).
  { rewrite <- string_app_cons. apply string_prefix_app. }
  unfold split. rewrite string_app_cons. cbn [splitFrom].
  rewrite Hprefix.
  replace (String.length (String c sep) - 1)%nat with (String.length sep)
    by (simpl; lia).
  rewrite splitFrom_skip.
  by rewrite splitFrom_no_match.
Qed.

Lemma getFilePrefix_cons (platform : string) :
  exists c sep, getFilePrefix platform = String c sep.
Proof. unfold getFilePrefix. case_decide; by eexists _, _. Qed.

(** X25. A URI made of the file prefix of the platform ("file:///" on
    win32, "file://" elsewhere) and of a rest that does not hold the prefix
    again unwraps to the decoded rest: on win32 the path loses its leading
    slash, elsewhere it keeps it.  An error of [decodeURIComponent] is the
    error of the unwrapping. *)
Theorem unwrapFileUriPath_strips_prefix (platform : string)
    (decodeURIComponent : string -> Completion string) (rest : string) :
  String.index 0 (getFilePrefix platform) rest = None ->
  unwrapFileUriPathOn platform decodeURIComponent
    (getFilePrefix platform +:+ rest)
  = decodeURIComponent rest.
Proof.
  intros Hnone. unfold unwrapFileUriPathOn.
  destruct (getFilePrefix_cons platform) as (c & sep & Hprefix).
  rewrite Hprefix in *. by rewrite split_at_start.
Qed.

(** X26. A URI that does not hold the file prefix of the platform, a plain
    path or an [untitled:] URI for instance, unwraps to what
    [decodeURIComponent] makes of [undefined], that is of the string
    "undefined": the path of the document is lost. *)
Theorem unwrapFileUriPath_without_prefix (platform : string)
    (decodeURIComponent : string -> Completion string) (uri : string) :
  String.index 0 (getFilePrefix platform) uri = None ->
  unwrapFileUriPathOn platform decodeURIComponent uri
  = decodeURIComponent "undefined".
Proof.
  intros Hnone. unfold unwrapFileUriPathOn, split.
  rewrite splitFrom_no_match by exact Hnone. reflexivity.
Qed.

(** X25 on [file:///a.ts], on win32 and elsewhere. *)
Lemma unwrapFileUriPath_strips_prefix_witness :
  unwrapFileUriPathOn "win32" exampleDecode "file:///a.ts" = Normal "a.ts"
  /\ unwrapFileUriPathOn "linux" exampleDecode "file:///a.ts" = Normal "/a.ts".
Proof.
  split.
  - exact (unwrapFileUriPath_strips_prefix "win32" exampleDecode "a.ts"
             ltac:(reflexivity)).
  - exact (unwrapFileUriPath_strips_prefix "linux" exampleDecode "/a.ts"
             ltac:(reflexivity)).
Defined.

(** X26 on a plain path. *)
Lemma unwrapFileUriPath_without_prefix_witness :
  unwrapFileUriPathOn "linux" exampleDecode "/home/a.ts" = Normal "undefined".
Proof.
  exact (unwrapFileUriPath_without_prefix "linux" exampleDecode "/home/a.ts"
           ltac:(reflexivity)).
Defined.

(** ** Diagnostics *)

(** X27. The conversion of a diagnostic loses its category and nothing
    else: two diagnostics that give the same error for the editor have the
    same start, the same end and the same text. *)
Theorem toDiagnosticError_keeps_all_but_category
    (d1 d2 : protocol.Diagnostic) :
  toDiagnosticError d1 = toDiagnosticError d2 ->
  protocol.diag_start d1 = protocol.diag_start d2
  /\ protocol.diag_end d1 = protocol.diag_end d2
  /\ protocol.text d1 = protocol.text d2.
Proof.
  destruct d1 as [[l1 o1] [l1' o1'] t1 c1], d2 as [[l2 o2] [l2' o2'] t2 c2].
  unfold toDiagnosticError; simpl. intros [= Ht Hl Ho Hl' Ho'].
  repeat split; [| | exact Ht]; f_equal; lia.
Qed.

(** X27 on a warning and an error at the same place. *)
Lemma toDiagnosticError_keeps_all_but_category_witness :
  protocol.diag_start exampleDiagnostic
  = protocol.diag_start exampleErrorDiagnostic
  /\ protocol.diag_end exampleDiagnostic
     = protocol.diag_end exampleErrorDiagnostic
  /\ protocol.text exampleDiagnostic = protocol.text exampleErrorDiagnostic.
Proof.
  exact (toDiagnosticError_keeps_all_but_category exampleDiagnostic
           exampleErrorDiagnostic ltac:(reflexivity)).
Defined.
